(** * Hybrid_Rag: the resource-governed orchestration layer

    A shallow embedding of the control logic of [demo1.py] (intent router,
    knowledge index manager, inference governor, the endpoints and the
    start-up check), of [watchdog_jarvis.py] (the out-of-process supervisor)
    and of the dispatcher of [action_engine.py], with the properties of the
    specification, and further properties of the code, stated and proved
    against it.

    Conventions of the embedding.
    - A Python [str] is held as its UTF-8 encoding, a [string] of bytes.
      [strip] removes the characters of [str.isspace], [s[:n]] and [s[n:]]
      count characters, not bytes, and [lower] and [title] fold the ASCII
      letters themselves and take the case mapping of every other character
      from the class [Unicode], the interpreter's character database.
      Everything proved is proved for every such database; [latin1] is the
      one the sample inputs are evaluated with.
    - The data directory is a POSIX one: a path is the folder, "/" and the
      file name, text is written as it is, and read in text mode, with
      "\r\n" and "\r" coming out as "\n".
    - Collaborators outside the repository (the two Ollama chat backends, the
      Chroma embedding call, DuckDuckGo, the action engine, the clock, the
      memory probe) are read from an environment record [Env]; each may
      return or raise.
    - Python exceptions are the [Raised] outcome of a state-and-exception
      monad over the [World]; effects made before a [raise] persist, as in
      Python.
    - What the operating system does when the server appends to a log file,
      opens a file of the data directory for writing or starts a thread is
      read from the class [Machine]; each may raise.  On the machine
      [sound] all of them succeed.  A statement that names no machine is
      about [sound]; the statements about what escapes a handler are made
      for every machine.  The supervisor's log file is the class [Journal]
      of the module [Watchdog], with [writable] in the place of [sound].
    - Threads are recorded, not run: starting one appends its target to
      [threads].  The re-index lock therefore does not appear; [_build_index]
      is modelled as the atomic section the lock makes it. *)

From Stdlib Require Import String Ascii ZArith QArith Lia.
From stdpp Require Import base option list gmap strings pretty.

Open Scope string_scope.
Open Scope list_scope.

(** ** The character database *)

(** The case mapping of the characters outside ASCII.  A character is given
    by the bytes that encode it. *)
Class Unicode : Type := {
  (* the lowercase of a character, by the text before it and the text after
     it ([str.lower] looks at them for the capital sigma) *)
  tolower : string -> string -> string -> string;
  (* its titlecase *)
  totitle : string -> string;
  (* whether it is a cased character *)
  cased : string -> bool
}.

(** ** Python [str] methods *)

Module Py.

Definition code (c : ascii) : nat := nat_of_ascii c.

(** A character is one byte below 128, or a lead byte (192 and above)
    followed by its continuation bytes (128 to 191). *)
Definition is_ascii (c : ascii) : bool := (code c <? 128)%nat.

Definition continuation (c : ascii) : bool :=
  (128 <=? code c)%nat && (code c <? 192)%nat.

(** The continuation bytes [s] begins with, and what comes after them. *)
Fixpoint tail_bytes (s : string) : string :=
  match s with
  | EmptyString => EmptyString
  | String c s' => if continuation c then String c (tail_bytes s') else EmptyString
  end.

Fixpoint past_tail (s : string) : string :=
  match s with
  | EmptyString => EmptyString
  | String c s' => if continuation c then past_tail s' else s
  end.

(** The first character of [s], with all its bytes. *)
Definition head (s : string) : string :=
  match s with
  | EmptyString => EmptyString
  | String c s' => String c (tail_bytes s')
  end.

(** [c.isupper()] and [c.islower()] on the ASCII range. *)
Definition isupper (c : ascii) : bool :=
  (65 <=? code c)%nat && (code c <=? 90)%nat.

Definition islower (c : ascii) : bool :=
  (97 <=? code c)%nat && (code c <=? 122)%nat.

Definition lower_char (c : ascii) : ascii :=
  if isupper c then ascii_of_nat (code c + 32) else c.

Definition upper_char (c : ascii) : ascii :=
  if islower c then ascii_of_nat (code c - 32) else c.

Section CaseMapping.
Context `{U : Unicode}.

(** [s.lower()], character by character; [before] is the text already
    passed.  A continuation byte was dealt with at its lead byte. *)
Fixpoint lower_from (before s : string) : string :=
  match s with
  | EmptyString => EmptyString
  | String c s' =>
      (if is_ascii c then String (lower_char c) EmptyString
       else if continuation c then EmptyString
       else tolower before (String c (tail_bytes s')) (past_tail s'))
      +:+ lower_from (before +:+ String c EmptyString) s'
  end.

(** [s.lower()] *)
Definition lower (s : string) : string := lower_from EmptyString s.

(** [s.title()]: a character is lowercased when the character before it is
    cased, titlecased otherwise. *)
Fixpoint title_from (previous_is_cased : bool) (before s : string) : string :=
  match s with
  | EmptyString => EmptyString
  | String c s' =>
      (if is_ascii c then
         String (if previous_is_cased then lower_char c else upper_char c) EmptyString
       else if continuation c then EmptyString
       else if previous_is_cased
            then tolower before (String c (tail_bytes s')) (past_tail s')
            else totitle (String c (tail_bytes s')))
      +:+ title_from (if is_ascii c then isupper c || islower c
                      else if continuation c then previous_is_cased
                      else cased (String c (tail_bytes s')))
                     (before +:+ String c EmptyString) s'
  end.

(** [s.title()] *)
Definition title (s : string) : string := title_from false EmptyString s.

End CaseMapping.

(** The code point a character's bytes encode, if they encode one. *)
Definition codepoint (ch : string) : option N :=
  match map (fun c => N.of_nat (code c)) (list_ascii_of_string ch) with
  | [a] => if (a <? 128)%N then Some a else None
  | [a; b] =>
      if (192 <=? a)%N && (a <? 224)%N then Some ((a - 192) * 64 + (b - 128))%N else None
  | [a; b; c] =>
      if (224 <=? a)%N && (a <? 240)%N
      then Some ((a - 224) * 4096 + (b - 128) * 64 + (c - 128))%N else None
  | [a; b; c; d] =>
      if (240 <=? a)%N
      then Some ((a - 240) * 262144 + (b - 128) * 4096 + (c - 128) * 64 + (d - 128))%N
      else None
  | _ => None
  end.

(** [c.isspace()] by code point: the characters [strip] removes. *)
Definition whitespace (n : N) : bool :=
  ((0x9 <=? n) && (n <=? 0xD))%N || ((0x1C <=? n) && (n <=? 0x20))%N
  || (n =? 0x85)%N || (n =? 0xA0)%N || (n =? 0x1680)%N
  || ((0x2000 <=? n) && (n <=? 0x200A))%N
  || (n =? 0x2028)%N || (n =? 0x2029)%N || (n =? 0x202F)%N || (n =? 0x205F)%N
  || (n =? 0x3000)%N.

(** [c.isspace()] *)
Definition isspace (ch : string) : bool :=
  match codepoint ch with
  | Some n => whitespace n
  | None => false
  end.

(** [s.lstrip()]; [skip] counts the bytes of a whitespace character still to
    be passed over. *)
Fixpoint lstrip_from (skip : nat) (s : string) : string :=
  match s with
  | EmptyString => EmptyString
  | String c s' =>
      match skip with
      | S k => lstrip_from k s'
      | O =>
          if isspace (head s) then lstrip_from (String.length (head s) - 1) s'
          else s
      end
  end.

Definition lstrip (s : string) : string := lstrip_from 0 s.

(** [s.rstrip()]: cut where only whitespace is left. *)
Fixpoint rstrip (s : string) : string :=
  match s with
  | EmptyString => EmptyString
  | String c s' =>
      match lstrip s with
      | EmptyString => EmptyString
      | _ => String c (rstrip s')
      end
  end.

(** [s.strip()] *)
Definition strip (s : string) : string := lstrip (rstrip s).

(** [s.startswith(t)] *)
Definition startswith (s t : string) : bool := String.prefix t s.

(** [t in s] *)
Fixpoint contains (t s : string) : bool :=
  String.prefix t s
  || match s with
     | EmptyString => false
     | String _ s' => contains t s'
     end.

(** [s.endswith(t)] *)
Fixpoint endswith (s t : string) : bool :=
  String.eqb s t
  || match s with
     | EmptyString => false
     | String _ s' => endswith s' t
     end.

(** [s.replace(old, new)] for a non-empty [old]: every non-overlapping
    occurrence, leftmost first.  [skip] counts the bytes of a matched
    occurrence still to be passed over. *)
Fixpoint replace_from (old new : string) (skip : nat) (s : string) : string :=
  match s with
  | EmptyString => EmptyString
  | String c s' =>
      match skip with
      | S k => replace_from old new k s'
      | O =>
          if String.prefix old s
          then new +:+ replace_from old new (String.length old - 1) s'
          else String c (replace_from old new 0 s')
      end
  end.

(** With an empty [old], Python puts [new] before every character and at
    the end. *)
Fixpoint interleave (new s : string) : string :=
  match s with
  | EmptyString => new
  | String c s' =>
      (if continuation c then EmptyString else new) +:+ String c (interleave new s')
  end.

Definition replace (s old new : string) : string :=
  match old with
  | EmptyString => interleave new s
  | _ => replace_from old new 0 s
  end.

(** [len(s)]: one for every byte that starts a character. *)
Fixpoint len (s : string) : nat :=
  match s with
  | EmptyString => 0
  | String c s' => (if continuation c then 0 else 1) + len s'
  end.

(** [s[:n]] *)
Fixpoint upto (n : nat) (s : string) : string :=
  match s with
  | EmptyString => EmptyString
  | String c s' =>
      if continuation c then String c (upto n s')
      else match n with
           | O => EmptyString
           | S k => String c (upto k s')
           end
  end.

(** [s[n:]] *)
Fixpoint from (n : nat) (s : string) : string :=
  match s with
  | EmptyString => EmptyString
  | String c s' =>
      if continuation c then from n s'
      else match n with
           | O => s
           | S k => from k s'
           end
  end.

(** What is left of [s] after as many bytes as [t] has. *)
Fixpoint past (t s : string) : string :=
  match t, s with
  | String _ t', String _ s' => past t' s'
  | _, _ => s
  end.

(** [s.partition(sep)] for a non-empty [sep] that occurs in [s]: what comes
    before its first occurrence and what comes after; [None] when it does not
    occur. *)
Fixpoint cut (sep s : string) : option (string * string) :=
  if String.prefix sep s then Some (EmptyString, past sep s)
  else match s with
       | EmptyString => None
       | String c s' =>
           match cut sep s' with
           | Some (before, after) => Some (String c before, after)
           | None => None
           end
       end.

(** Reading in text mode: "\r\n" and a lone "\r" come out as "\n". *)
Fixpoint universal_newlines (s : string) : string :=
  match s with
  | EmptyString => EmptyString
  | String c s' =>
      if Ascii.eqb c "013" then
        String "010"
               (match s' with
                | String c' s'' =>
                    if Ascii.eqb c' "010" then universal_newlines s''
                    else universal_newlines s'
                | EmptyString => EmptyString
                end)
      else String c (universal_newlines s')
  end.

(** [sep.join(parts)] *)
Fixpoint join (sep : string) (parts : list string) : string :=
  match parts with
  | [] => ""
  | [p] => p
  | p :: rest => p +:+ sep +:+ join sep rest
  end.

(** [any(p(t) for t in ts)] *)
Definition any {A} (p : A -> bool) (ts : list A) : bool := existsb p ts.

End Py.

(** The database on the Latin-1 range, where the capitals from U+00C0 to
    U+00DE (the multiplication sign apart) have their lowercase 32 further
    on; U+00FF and U+00B5 have their capitals outside the range, and the
    sharp s is titlecased to two letters. *)
Definition latin1_lower (ch : string) : string :=
  match ch with
  | String a (String b EmptyString) =>
      if (Py.code a =? 195)%nat
         && (128 <=? Py.code b)%nat && (Py.code b <=? 158)%nat
         && negb (Py.code b =? 151)%nat
      then String a (String (ascii_of_nat (Py.code b + 32)) EmptyString)
      else ch
  | _ => ch
  end.

Definition latin1_title (ch : string) : string :=
  match ch with
  | String a (String b EmptyString) =>
      if (Py.code a =? 195)%nat then
        if (Py.code b =? 159)%nat then "Ss"
        else if (Py.code b =? 191)%nat
        then String (ascii_of_nat 197) (String (ascii_of_nat 184) EmptyString)
        else if (160 <=? Py.code b)%nat && negb (Py.code b =? 183)%nat
        then String a (String (ascii_of_nat (Py.code b - 32)) EmptyString)
        else ch
      else if (Py.code a =? 194)%nat && (Py.code b =? 181)%nat
      then String (ascii_of_nat 206) (String (ascii_of_nat 156) EmptyString)
      else ch
  | _ => ch
  end.

Definition latin1_cased (ch : string) : bool :=
  match ch with
  | String a (String b EmptyString) =>
      ((Py.code a =? 195)%nat
       && negb (Py.code b =? 151)%nat && negb (Py.code b =? 183)%nat)
      || ((Py.code a =? 194)%nat
          && ((Py.code b =? 170)%nat || (Py.code b =? 181)%nat || (Py.code b =? 186)%nat))
  | _ => false
  end.

#[global] Instance latin1 : Unicode :=
  {| tolower _ ch _ := latin1_lower ch;
     totitle := latin1_title;
     cased := latin1_cased |}.

(** ** Outcomes of a call that may raise *)

Inductive outcome (A : Type) : Type :=
| Returned (a : A)
| Raised (e : string).
Arguments Returned {A} a.
Arguments Raised {A} e.

(** ** [str.split] *)

Module PyText.

(** [s.split(sep)[0]] *)
Definition split_0 (s sep : string) : string :=
  match Py.cut sep s with
  | Some (before, _) => before
  | None => s
  end.

(** [s.split(sep)[1]]: the piece between the first and the second occurrence;
    [IndexError] when [sep] does not occur. *)
Definition split_1 (s sep : string) : outcome string :=
  match Py.cut sep s with
  | Some (_, after) => Returned (split_0 after sep)
  | None => Raised "IndexError: list index out of range"
  end.

(** [s.split(sep, 1)[1]] *)
Definition split_once_1 (s sep : string) : outcome string :=
  match Py.cut sep s with
  | Some (_, after) => Returned after
  | None => Raised "IndexError: list index out of range"
  end.

End PyText.

(** ** LangChain data *)

(** [langchain_core.documents.Document]; [source] is the [metadata] entry the
    text loader sets. *)
Record Document : Type := mkDocument {
  page_content : string;
  source : string
}.

Inductive Role : Type := Human | AI | System.

(** [BaseMessage]: [HumanMessage], [AIMessage] or [SystemMessage]. *)
Record BaseMessage : Type := mkMessage {
  role : Role;
  content : string
}.

Definition HumanMessage (c : string) : BaseMessage := mkMessage Human c.
Definition AIMessage (c : string) : BaseMessage := mkMessage AI c.
Definition SystemMessage (c : string) : BaseMessage := mkMessage System c.

(** [GraphState]: the keys a node may leave unset are options. *)
Record GraphState : Type := mkGraphState {
  messages : list BaseMessage;
  question : string;
  documents : option (list Document);
  answer : option string;
  user_id : string
}.

(** ** The intent router *)

Module Router.

Definition inject_triggers : list string :=
  ["jarvis, note that"; "jarvis note that"].

Definition action_triggers : list string :=
  ["play "; "open "; "send whatsapp"; "audit "; "open youtube"].

(** The body of [router] once [msg] has been read off the state:
    [msg] is the last message, lowercased and stripped. *)
Definition route (msg : string) (docs : option (list Document)) : string :=
  if Py.any (fun t => Py.startswith msg t) inject_triggers then "inject"
  else if Py.contains "remember" msg || Py.contains "save this" msg then "learn"
  else if Py.any (fun t => Py.startswith msg t || Py.contains t msg) action_triggers
  then "act"
  else match docs with
       | None => "web"
       | Some [] => "web"
       | Some (_ :: _) => "answer"
       end.

Section Classify.
Context `{U : Unicode}.

(** [router(state)]; [state["messages"][-1]] raises on an empty list. *)
Definition router (state : GraphState) : outcome string :=
  match last (messages state) with
  | None => Raised "IndexError: list index out of range"
  | Some m => Returned (route (Py.strip (Py.lower (content m))) (documents state))
  end.

End Classify.

(** The mapping given to [add_conditional_edges]. *)
Definition edges : gmap string string :=
  {[ "inject" := "knowledge_inject"; "learn" := "self_learn";
     "act" := "action"; "web" := "web_search"; "answer" := "respond" ]}.

End Router.

(** ** The world the server process acts on *)

(** A JSON value as far as [_check_shortcut] tells values apart: a string, or
    anything else (on which [.lower()] raises). *)
Inductive jval : Type :=
| JStr (s : string)
| JOther.

(** One line of [usage_log.jsonl] as the reader sees it: whitespace only
    (skipped), a JSON object, or text that [json.loads] rejects or that is
    JSON but not an object (either raises inside the reader's [try]). *)
Inductive line : Type :=
| Blank
| Object (e : gmap string jval)
| Unreadable.

(** The messages written to [system_health.log], one constructor per format
    string of [demo1.py], holding the interpolated values. *)
Inductive HealthMessage : Type :=
| MemGuardIndex (ram : Q)
    (* "MemGuard triggered at index time: RAM={ram_pct:.1f}%" *)
| MemGuardInference (ram : Q)
    (* "MemGuard: RAM={ram_now:.1f}% - fallback LLM used." *)
| FallbackFailedUnderGuard (e : string)
    (* "Fallback LLM failed under MemGuard: {e}" *)
| PrimaryFailed (e : string)
    (* "Primary LLM failed: {e}. Engaging fallback." *)
| FallbackAlsoFailed (e : string)
    (* "Fallback LLM also failed: {e2}" *)
| ReindexFailed (e : string)
    (* "Re-index failed: {e}" *)
| WebSearchFailed (query e : string)
    (* "Web search failed for '{query}': {e}" *)
| EndpointCrash (e : string)
    (* "Endpoint crash: {traceback.format_exc()}" *).

(** The handle [Chroma(persist_directory=..., collection_name=...)] returns;
    the collection it names lives on disk, in [chroma_db]. *)
Record Chroma : Type := mkChroma {
  persist_directory : string;
  collection_name : string
}.

(** The two chat backends. *)
Inductive Backend : Type :=
| primary
| fallback.

(** Targets of the daemon threads the server starts. *)
Inductive Target : Type :=
| reindex_target
| evict_target.

Record World : Type := mkWorld {
  (* attributes of the [RAGPipeline] object *)
  self_documents : list Document;
  self_chunks : list Document;
  self_bm25_retriever : option (list Document);
  self_vector_store : option Chroma;
  (* the disk: the data directory, if there is one, holds under each name
     the text of the file as it is stored, or what reading it raises *)
  data_dir : option (list (string * outcome string));
  chroma_db : list Document;
  usage_log : option (list line);
  health_log : list (string * HealthMessage);
  (* threads started so far *)
  threads : list Target;
  (* chat backends invoked so far, and batches handed to the embedder *)
  llm_calls : list Backend;
  embed_calls : list (list Document)
}.

Definition set_documents (v : list Document) (w : World) : World :=
  mkWorld v (self_chunks w) (self_bm25_retriever w) (self_vector_store w)
          (data_dir w) (chroma_db w) (usage_log w) (health_log w)
          (threads w) (llm_calls w) (embed_calls w).
Definition set_chunks (v : list Document) (w : World) : World :=
  mkWorld (self_documents w) v (self_bm25_retriever w) (self_vector_store w)
          (data_dir w) (chroma_db w) (usage_log w) (health_log w)
          (threads w) (llm_calls w) (embed_calls w).
Definition set_bm25_retriever (v : option (list Document)) (w : World) : World :=
  mkWorld (self_documents w) (self_chunks w) v (self_vector_store w)
          (data_dir w) (chroma_db w) (usage_log w) (health_log w)
          (threads w) (llm_calls w) (embed_calls w).
Definition set_vector_store (v : option Chroma) (w : World) : World :=
  mkWorld (self_documents w) (self_chunks w) (self_bm25_retriever w) v
          (data_dir w) (chroma_db w) (usage_log w) (health_log w)
          (threads w) (llm_calls w) (embed_calls w).
Definition set_data_dir (v : option (list (string * outcome string))) (w : World) : World :=
  mkWorld (self_documents w) (self_chunks w) (self_bm25_retriever w) (self_vector_store w)
          v (chroma_db w) (usage_log w) (health_log w)
          (threads w) (llm_calls w) (embed_calls w).
Definition set_chroma_db (v : list Document) (w : World) : World :=
  mkWorld (self_documents w) (self_chunks w) (self_bm25_retriever w) (self_vector_store w)
          (data_dir w) v (usage_log w) (health_log w)
          (threads w) (llm_calls w) (embed_calls w).
Definition set_usage_log (v : option (list line)) (w : World) : World :=
  mkWorld (self_documents w) (self_chunks w) (self_bm25_retriever w) (self_vector_store w)
          (data_dir w) (chroma_db w) v (health_log w)
          (threads w) (llm_calls w) (embed_calls w).
Definition set_health_log (v : list (string * HealthMessage)) (w : World) : World :=
  mkWorld (self_documents w) (self_chunks w) (self_bm25_retriever w) (self_vector_store w)
          (data_dir w) (chroma_db w) (usage_log w) v
          (threads w) (llm_calls w) (embed_calls w).
Definition set_threads (v : list Target) (w : World) : World :=
  mkWorld (self_documents w) (self_chunks w) (self_bm25_retriever w) (self_vector_store w)
          (data_dir w) (chroma_db w) (usage_log w) (health_log w)
          v (llm_calls w) (embed_calls w).
Definition set_llm_calls (v : list Backend) (w : World) : World :=
  mkWorld (self_documents w) (self_chunks w) (self_bm25_retriever w) (self_vector_store w)
          (data_dir w) (chroma_db w) (usage_log w) (health_log w)
          (threads w) v (embed_calls w).
Definition set_embed_calls (v : list (list Document)) (w : World) : World :=
  mkWorld (self_documents w) (self_chunks w) (self_bm25_retriever w) (self_vector_store w)
          (data_dir w) (chroma_db w) (usage_log w) (health_log w)
          (threads w) (llm_calls w) v.

(** ** The collaborators *)

Record Env : Type := mkEnv {
  (* [psutil.virtual_memory().percent] *)
  virtual_memory_percent : Q;
  (* [self.llm.invoke] and [self.llm_fallback.invoke] *)
  llm : list BaseMessage -> outcome string;
  llm_fallback : list BaseMessage -> outcome string;
  (* [self.text_splitter.split_documents] *)
  split_documents : list Document -> list Document;
  (* the embedding call behind [vector_store.add_documents] *)
  embed : list Document -> outcome unit;
  (* [vector_store.similarity_search(q, k=3)] over the stored collection *)
  similarity_search : list Document -> string -> outcome (list Document);
  (* the bodies of [ddgs.text(query, max_results=3)] *)
  ddgs_text : string -> outcome (list string);
  (* [from action_engine import parse_and_execute], then the call *)
  action_engine : outcome (string -> outcome (option string));
  (* [from vision_module import analyze_image]: [None] is [ImportError] *)
  vision_module : option (string -> outcome string);
  (* [datetime.datetime.now()] under the three formats used *)
  now_compact : string;      (* "%Y%m%d_%H%M%S" *)
  now_long : string;         (* "%Y-%m-%d %H:%M:%S" *)
  now_iso : string           (* isoformat() *)
}.

(** ** State and exceptions *)

(** A computation over a state [S] that returns an [A] or raises. *)
Definition ST (S A : Type) : Type := S -> outcome A * S.

Definition ret {S A} (a : A) : ST S A := fun s => (Returned a, s).

Definition bind {S A B} (m : ST S A) (k : A -> ST S B) : ST S B :=
  fun s => match m s with
           | (Returned a, s') => k a s'
           | (Raised e, s') => (Raised e, s')
           end.

Definition raise {S A} (e : string) : ST S A := fun s => (Raised e, s).

(** [try: m  except Exception as e: h(e)] *)
Definition try_except {S A} (m : ST S A) (h : string -> ST S A) : ST S A :=
  fun s => match m s with
           | (Returned a, s') => (Returned a, s')
           | (Raised e, s') => h e s'
           end.

Definition get {S A} (f : S -> A) : ST S A := fun s => (Returned (f s), s).
Definition modify {S} (f : S -> S) : ST S unit := fun s => (Returned tt, f s).

(** The result of a collaborator's call enters the monad as it is. *)
Definition call {S A} (r : outcome A) : ST S A := fun s => (r, s).

(** The same for a call whose result depends on the state it is made in. *)
Definition ask {S A} (f : S -> outcome A) : ST S A := fun s => (f s, s).

(** The server's computations run over the [World]. *)
Abbreviation M := (ST World).

(** [m] changes nothing that the observation [f] of the state sees. *)
Definition keeps {S A B : Type} (f : S -> B) (m : ST S A) : Prop :=
  forall s, f (snd (m s)) = f s.

(** An observation that the nodes of a request cannot change: it does not
    depend on the threads started, the health log, the backends invoked or
    the data directory. *)
Record request_frame {B : Type} (f : World -> B) : Prop := {
  frame_threads : forall v w, f (set_threads v w) = f w;
  frame_health_log : forall v w, f (set_health_log v w) = f w;
  frame_llm_calls : forall v w, f (set_llm_calls v w) = f w;
  frame_data_dir : forall v w, f (set_data_dir v w) = f w
}.

Declare Scope py_scope.
Delimit Scope py_scope with py.
Notation "x <- m ;; k" := (bind m (fun x => k))
  (at level 100, m at next level, right associativity) : py_scope.
Notation "m ;; k" := (bind m (fun _ => k))
  (at level 100, right associativity) : py_scope.
Open Scope py_scope.

Definition nl : string := String (ascii_of_nat 10) EmptyString.

(** The carriage return. *)
Definition CR : string := String "013" EmptyString.

(** ** The machine under the server *)

Inductive LogFile : Type :=
| HEALTH_LOG      (* "system_health.log" *)
| USAGE_LOG.      (* "usage_log.jsonl" *)

(** What the operating system does, in the world as it is, when the server
    appends a line to a log file, opens a file of the data directory for
    writing or starts a thread: it returns, or raises. *)
Class Machine : Type := {
  (* [open(log, "a", encoding="utf-8")] and the write of the line *)
  append_line : LogFile -> World -> outcome unit;
  (* [open(os.path.join(DATA_DIR, name), mode, encoding="utf-8")] with mode
     "w" or "a", in a data directory that exists *)
  open_for_writing : string -> World -> outcome unit;
  (* [threading.Thread(target=t, daemon=True).start()] *)
  start : Target -> World -> outcome unit
}.

(** The machine on which all of them succeed. *)
#[global] Instance sound : Machine :=
  {| append_line _ _ := Returned tt;
     open_for_writing _ _ := Returned tt;
     start _ _ := Returned tt |}.

(** Every append to a log file succeeds; every thread starts. *)
Definition logs_writable `{OS : Machine} : Prop :=
  forall f w, append_line f w = Returned tt.

Definition threads_start `{OS : Machine} : Prop :=
  forall t w, start t w = Returned tt.

(** ** Health and usage logging *)

Module Telemetry.

Section Logging.
Context `{OS : Machine}.

(** [_log_health(message)]: one line, stamped with the clock; the file is
    opened before anything is written. *)
Definition _log_health (env : Env) (message : HealthMessage) : M unit :=
  ask (append_line HEALTH_LOG) ;;
  modify (fun w => set_health_log (health_log w ++ [(now_long env, message)]) w).

(** The dictionary [_log_usage] dumps. *)
Definition usage_entry (env : Env) (uid query outcome_tag : string) : gmap string jval :=
  {[ "ts" := JStr (now_iso env); "user_id" := JStr uid;
     "query" := JStr query; "outcome" := JStr outcome_tag ]}.

(** [_log_usage(user_id, query, outcome)]: opening with mode "a" creates
    the file when it is not there. *)
Definition _log_usage (env : Env) (uid query outcome_tag : string) : M unit :=
  ask (append_line USAGE_LOG) ;;
  modify (fun w =>
    set_usage_log
      (Some (default [] (usage_log w) ++ [Object (usage_entry env uid query outcome_tag)]))
      w).

End Logging.

(** [[json.loads(l) for l in f if l.strip()]] *)
Fixpoint entries (ls : list line) : outcome (list (gmap string jval)) :=
  match ls with
  | [] => Returned []
  | Blank :: rest => entries rest
  | Unreadable :: _ => Raised "JSONDecodeError"
  | Object e :: rest =>
      match entries rest with
      | Returned es => Returned (e :: es)
      | Raised x => Raised x
      end
  end.

Section Counting.
Context `{U : Unicode}.

(** [e.get("query", "").lower()] *)
Definition query_lower (e : gmap string jval) : outcome string :=
  match default (JStr "") (e !! "query") with
  | JStr s => Returned (Py.lower s)
  | JOther => Raised "AttributeError"
  end.

(** [sum(1 for e in entries if e.get("query", "").lower() == query.lower())] *)
Fixpoint count (es : list (gmap string jval)) (query : string) : outcome nat :=
  match es with
  | [] => Returned 0
  | e :: rest =>
      match query_lower e with
      | Raised x => Raised x
      | Returned q =>
          match count rest query with
          | Raised x => Raised x
          | Returned n => Returned (if String.eqb q (Py.lower query) then S n else n)
          end
      end
  end.

(** The per-query occurrence count of the log: what [count] is when the
    file is read without an exception ([0] when there is no file). *)
Definition occurrences (query : string) (w : World) : outcome nat :=
  match usage_log w with
  | None => Returned 0
  | Some ls =>
      match entries ls with
      | Raised x => Raised x
      | Returned es => count es query
      end
  end.

Definition SHORTCUT_HINT : string :=
  nl +:+ nl +:+
  "[JARVIS]: Sir, I notice you ask this frequently. Shall I create an auto-report shortcut for it?".

(** [_check_shortcut(query)]: whatever is raised while reading or counting
    is swallowed and the empty string returned. *)
Definition _check_shortcut (query : string) (w : World) : string :=
  match usage_log w with
  | None => ""
  | Some ls =>
      match entries ls with
      | Raised _ => ""
      | Returned es =>
          match count es query with
          | Raised _ => ""
          | Returned n => if (3 <=? n)%nat then SHORTCUT_HINT else ""
          end
      end
  end.

End Counting.

End Telemetry.

(** ** The knowledge index manager *)

Module Index.
Import Telemetry.

Definition DATA_DIR : string := "data".
Definition CHROMA_DIR : string := "./chroma_db".

(** [ram > 40] *)
Definition above_guard (ram : Q) : bool := negb (Qle_bool ram 40).

(** [Chroma(persist_directory=self.CHROMA_DIR, ..., collection_name="rag_collection")]:
    opens the persisted collection, creating an empty one if there is none. *)
Definition open_chroma : Chroma := mkChroma CHROMA_DIR "rag_collection".

(** [os.path.join(folder_path, file)] *)
Definition path_join (folder_path file : string) : string :=
  folder_path +:+ "/" +:+ file.

Section Build.
Context `{OS : Machine}.

(** [loader.load()] of one file of the directory: the file is read in text
    mode, and [source] is its path. *)
Definition load_file (folder_path : string) (f : string * outcome string) : list Document :=
  if Py.endswith (fst f) ".txt" || Py.endswith (fst f) ".md"
  then match snd f with
       | Returned text =>
           [mkDocument (Py.universal_newlines text) (path_join folder_path (fst f))]
       | Raised _ => []       (* printed as a warning, file skipped *)
       end
  else [].

(** [load_documents(folder_path)] *)
Definition load_documents (folder_path : string) (w : World) : list Document :=
  match data_dir w with
  | None => []
  | Some files => flat_map (load_file folder_path) files
  end.

(** [self.vector_store._collection.count()] *)
Definition collection_count (w : World) : nat := length (chroma_db w).

(** [self.vector_store.add_documents(new_docs)]: the texts are embedded
    first; if that raises nothing has been stored. *)
Definition add_documents (env : Env) (new_docs : list Document) : M unit :=
  modify (fun w => set_embed_calls (embed_calls w ++ [new_docs]) w) ;;
  call (embed env new_docs) ;;
  modify (fun w => set_chroma_db (chroma_db w ++ new_docs) w).

Definition NO_CHUNKS : string := "ValueError: not enough values to unpack".

(** [BM25Retriever.from_documents(chunks)]: unpacking the texts of an empty
    list raises. *)
Definition bm25_from_documents (chunks : list Document) : outcome (list Document) :=
  match chunks with
  | [] => Raised NO_CHUNKS
  | _ :: _ => Returned chunks
  end.

(** [_build_index()], the body run under [_reindex_lock]. *)
Definition _build_index (env : Env) : M unit :=
  let ram_pct := virtual_memory_percent env in
  if above_guard ram_pct then
    _log_health env (MemGuardIndex ram_pct) ;;
    modify (set_documents []) ;;
    modify (set_chunks []) ;;
    modify (set_bm25_retriever None) ;;
    modify (set_vector_store (Some open_chroma)) ;;
    ret tt
  else
    docs <- get (load_documents DATA_DIR) ;;
    modify (set_documents docs) ;;
    match docs with
    | _ :: _ =>
        let chunks := split_documents env docs in
        modify (set_chunks chunks) ;;
        retriever <- call (bm25_from_documents chunks) ;;
        modify (set_bm25_retriever (Some retriever)) ;;
        modify (set_vector_store (Some open_chroma)) ;;
        existing_count <- get collection_count ;;
        if (existing_count <? length chunks)%nat then
          let new_docs := drop existing_count chunks in
          add_documents env new_docs
        else ret tt
    | [] =>
        modify (set_chunks []) ;;
        modify (set_bm25_retriever None) ;;
        modify (set_vector_store None)
    end.

(** [reindex()] *)
Definition reindex (env : Env) : M unit :=
  try_except (_build_index env)
             (fun e => _log_health env (ReindexFailed e)).

End Build.

(** The chunks a call hands to the embedder: what [chroma_db] gained. *)
Definition inserted (before after : World) : list Document :=
  drop (length (chroma_db before)) (chroma_db after).

End Index.

(** The counts of the [/status] reply. *)
Module Status.

Record report : Type := mkReport {
  status_text : string;
  llm_model : string;
  documents : nat;
  chunks : nat;
  vectors : nat;
  message : string
}.

(** [status()]; the [uptime] entry, read off the clock, is left out. *)
Definition status (w : World) : report :=
  let doc_count := length (self_documents w) in
  let chunk_count := length (self_chunks w) in
  let vec_count := match self_vector_store w with
                   | Some _ => Index.collection_count w
                   | None => 0
                   end in
  mkReport "JARVIS ONLINE" "llama3.2 (Ollama)" doc_count chunk_count vec_count
           "All systems nominal, Sir.".

End Status.

(** ** Graph nodes *)

(** What a node returns: the keys it sets. *)
Record Update : Type := mkUpdate {
  upd_documents : option (list Document);
  upd_question : option string;
  upd_answer : option string;
  upd_messages : list BaseMessage
}.

(** Merging a node's return value into the state: [messages] goes through the
    [add_messages] reducer (appended), every other key is overwritten. *)
Definition merge (u : Update) (state : GraphState) : GraphState :=
  mkGraphState
    (messages state ++ upd_messages u)
    (default (question state) (upd_question u))
    (match upd_documents u with Some d => Some d | None => documents state end)
    (match upd_answer u with Some a => Some a | None => answer state end)
    (user_id state).

(** [state["messages"][-1].content] *)
Definition last_content (state : GraphState) : M string :=
  match last (messages state) with
  | Some m => ret (content m)
  | None => raise "IndexError: list index out of range"
  end.

(** [threading.Thread(target=t, daemon=True).start()] *)
Definition start_thread `{OS : Machine} (t : Target) : M unit :=
  ask (start t) ;;
  modify (fun w => set_threads (threads w ++ [t]) w).

Module Governor.
Import Telemetry.

Definition PERSONA : string :=
  "You are JARVIS, the personal AI assistant of Dwijas Vompigadda — " +:+
  "Associate at zHeight's Founder Office, Cloud-Native Architect, and Former MD of Cloudlor. " +:+
  "Respond like Tony Stark's JARVIS: concise, sharp, professional, occasionally witty. " +:+
  "Address him as 'Sir' or 'Dwijas' occasionally. " +:+
  "Keep responses brief and TTS-friendly — no long bullet lists unless explicitly asked. " +:+
  "You support Python, Flutter, React, Node.js, .NET, n8n, and Selenium. " +:+
  "zHeight revenue details are strictly confidential. ".

Definition APOLOGY_MEMORY : string :=
  "Apologies, Sir. Memory pressure is too high for a response right now. Please free some RAM.".

Definition APOLOGY_OFFLINE : string :=
  "Apologies, Sir. Both primary and fallback cognitive arrays are offline. Please check Ollama.".

(** [self.llm.invoke(prompt)] / [self.llm_fallback.invoke(prompt)], then
    [res.content]. *)
Definition invoke (env : Env) (b : Backend) (prompt : list BaseMessage) : M string :=
  modify (fun w => set_llm_calls (llm_calls w ++ [b]) w) ;;
  call (match b with
        | primary => llm env prompt
        | fallback => llm_fallback env prompt
        end).

(** [sys_msg], built from the retrieved documents. *)
Definition sys_msg (state : GraphState) : BaseMessage :=
  let ctx := Py.join (nl +:+ nl) (map page_content (default [] (documents state))) in
  SystemMessage (PERSONA +:+ nl +:+ nl +:+ "Local Context from memory:" +:+ nl +:+ ctx).

(** [[sys_msg] + state["messages"]] *)
Definition prompt (state : GraphState) : list BaseMessage :=
  sys_msg state :: messages state.

Section Generate.
Context `{OS : Machine}.

(** [response_node(state)] *)
Definition response_node (env : Env) (state : GraphState) : M Update :=
  let ram_now := virtual_memory_percent env in
  answer <-
    (if Index.above_guard ram_now then
       _log_health env (MemGuardInference ram_now) ;;
       try_except
         (invoke env fallback (prompt state))
         (fun e =>
            _log_health env (FallbackFailedUnderGuard e) ;;
            ret APOLOGY_MEMORY)
     else
       try_except
         (invoke env primary (prompt state))
         (fun e =>
            _log_health env (PrimaryFailed e) ;;
            try_except
              (invoke env fallback (prompt state))
              (fun e2 =>
                 _log_health env (FallbackAlsoFailed e2) ;;
                 ret APOLOGY_OFFLINE))) ;;
  start_thread evict_target ;;
  ret (mkUpdate None None (Some answer) [AIMessage answer]).

End Generate.

End Governor.

Module Orchestrator.
Import Telemetry.

(** [open(os.path.join(DATA_DIR, name), "w").write(text)]: replaces the
    file of that name or adds it to the directory. *)
Fixpoint put_file (name text : string) (files : list (string * outcome string))
  : list (string * outcome string) :=
  match files with
  | [] => [(name, Returned text)]
  | f :: rest =>
      if String.eqb (fst f) name then (name, Returned text) :: rest
      else f :: put_file name text rest
  end.

(** The same with mode "a": the text goes after what the file holds. *)
Fixpoint append_file (name text : string) (files : list (string * outcome string))
  : list (string * outcome string) :=
  match files with
  | [] => [(name, Returned text)]
  | f :: rest =>
      if String.eqb (fst f) name
      then (name, match snd f with
                  | Returned old => Returned (old +:+ text)
                  | Raised e => Raised e
                  end) :: rest
      else f :: append_file name text rest
  end.

Section Nodes.
Context `{U : Unicode} `{OS : Machine}.

(** [with open(os.path.join(DATA_DIR, name), mode, encoding="utf-8") as f:
    f.write(...)]: the open raises when the directory is not there, or when
    the machine refuses the name; [change] is what the write does to the
    directory. *)
Definition write (name : string)
    (change : list (string * outcome string) -> list (string * outcome string))
  : M unit :=
  fun w => match data_dir w with
           | None => (Raised "FileNotFoundError", w)
           | Some files =>
               match open_for_writing name w with
               | Returned _ => (Returned tt, set_data_dir (Some (change files)) w)
               | Raised e => (Raised e, w)
               end
           end.

Definition STRIP_PHRASES : list string :=
  ["jarvis, note that"; "jarvis note that"; "remember this:"; "remember this";
   "save this:"; "save this"].

(** The loop [for phrase in ...: clean = clean.lower().replace(phrase, "").strip()] *)
Definition strip_phrases (msg : string) : string :=
  fold_left (fun clean phrase => Py.strip (Py.replace (Py.lower clean) phrase ""))
            STRIP_PHRASES msg.

Definition INJECT_ACK : string :=
  "Understood, Sir. I've committed that to my long-term memory and am re-indexing the knowledge base now.".

(** [knowledge_inject_node(state)] *)
Definition knowledge_inject_node (env : Env) (state : GraphState) : M Update :=
  msg <- last_content state ;;
  let clean := strip_phrases msg in
  let ts := now_compact env in
  let topic := Py.replace (Py.replace (Py.upto 40 clean) " " "_") "/" "-" in
  let fname := "knowledge_" +:+ ts +:+ "_" +:+ topic +:+ ".md" in
  let text := "# Knowledge Entry — " +:+ now_long env +:+ nl +:+ nl +:+ clean +:+ nl in
  write fname (put_file fname text) ;;
  start_thread reindex_target ;;
  let ans := INJECT_ACK in
  ret (mkUpdate None None (Some ans) [AIMessage ans]).

Definition LEARN_ACK : string :=
  "Logged to memory, Sir. The knowledge arrays have been updated.".

(** [self_learn_node(state)] *)
Definition self_learn_node (env : Env) (state : GraphState) : M Update :=
  msg <- last_content state ;;
  let info := Py.strip (Py.replace (Py.replace (Py.lower msg) "remember" "") "save this" "") in
  let ts := now_long env in
  write "learned_memory.md"
        (append_file "learned_memory.md" (nl +:+ "- [" +:+ ts +:+ "] " +:+ info)) ;;
  start_thread reindex_target ;;
  let ans := LEARN_ACK in
  ret (mkUpdate None None (Some ans) [AIMessage ans]).

(** [web_search_node(state)] *)
Definition web_search_node (env : Env) (state : GraphState) : M Update :=
  let query := question state in
  combined <-
    try_except
      (results <- call (ddgs_text env query) ;;
       ret (Py.join (nl +:+ nl) results))
      (fun e =>
         _log_health env (WebSearchFailed query e) ;;
         ret ("Web search unavailable: " +:+ e)) ;;
  ret (mkUpdate (Some [mkDocument combined ""]) None None []).

(** [retrieve_node(state)] *)
Definition retrieve_node (env : Env) (state : GraphState) : M Update :=
  q <- last_content state ;;
  vs <- get self_vector_store ;;
  match vs with
  | None => ret (mkUpdate (Some []) (Some q) None [])
  | Some _ =>
      store <- get chroma_db ;;
      docs <- call (similarity_search env store q) ;;
      ret (mkUpdate (Some docs) (Some q) None [])
  end.

Definition AUDIT_SENTINEL : string := "AUDIT_REQUESTED:".

(** [action_node(state)] *)
Definition action_node (env : Env) (state : GraphState) : M Update :=
  ans <-
    try_except
      (parse_and_execute <- call (action_engine env) ;;
       msg <- last_content state ;;
       result <- call (parse_and_execute msg) ;;
       result <-
         match result with
         | Some r =>
             if negb (String.eqb r "") && Py.startswith r AUDIT_SENTINEL then
               filepath <- call (PyText.split_once_1 r ":") ;;
               match vision_module env with
               | Some analyze_image => a <- call (analyze_image filepath) ;; ret (Some a)
               | None =>
                   ret (Some ("Audit opened, but vision module unavailable. File: "
                              +:+ filepath))
               end
             else ret (Some r)
         | None => ret None
         end ;;
       ret (match result with
            | Some r => if String.eqb r "" then "Command executed, Sir." else r
            | None => "Command executed, Sir."
            end))
      (fun e => ret ("Action engine error: " +:+ e)) ;;
  ret (mkUpdate None None (Some ans) [AIMessage ans]).

(** Running one node and merging what it returns. *)
Definition step (node : GraphState -> M Update) (state : GraphState) : M GraphState :=
  u <- node state ;;
  ret (merge u state).

(** The state a thread starts from when the checkpointer holds nothing. *)
Definition fresh_thread : GraphState := mkGraphState [] "" None None "".

(** [pipeline.app.invoke(inputs, config)] on the compiled graph:
    START -> retrieve -> router -> one branch -> END, with
    web_search -> respond.  [prior] is what the checkpointer holds for the
    thread; the inputs are merged into it. *)
Definition invoke (env : Env) (prior : GraphState) (uid text : string) : M GraphState :=
  let state := mkGraphState (messages prior ++ [HumanMessage text]) text
                            (documents prior) (answer prior) uid in
  state <- step (retrieve_node env) state ;;
  label <- call (Router.router state) ;;
  match Router.edges !! label with
  | None => raise "KeyError"
  | Some target =>
      if String.eqb target "knowledge_inject" then step (knowledge_inject_node env) state
      else if String.eqb target "self_learn" then step (self_learn_node env) state
      else if String.eqb target "action" then step (action_node env) state
      else if String.eqb target "web_search" then
        state <- step (web_search_node env) state ;;
        step (Governor.response_node env) state
      else step (Governor.response_node env) state
  end.

(** [ask_jarvis(query)]; the reply is the value under ["answer"]. *)
Definition ask_jarvis (env : Env) (prior : GraphState) (uid text : string) : M string :=
  shortcut_hint <- get (_check_shortcut text) ;;
  try_except
    (result <- invoke env prior uid text ;;
     let ans := default "Jarvis did not return an answer." (answer result) in
     _log_usage env uid text "ok" ;;
     ret (ans +:+ shortcut_hint))
    (fun e =>
       _log_health env (EndpointCrash e) ;;
       _log_usage env uid text ("error: " +:+ e) ;;
       ret ("Apologies, Sir. A hiccup in the RAG node: " +:+ e)).

(** One request as it reaches the endpoint: the collaborators' behaviour
    while it is served, the thread's checkpoint, and the query. *)
Record Request : Type := mkRequest {
  req_env : Env;
  req_prior : GraphState;
  req_user : string;
  req_text : string
}.


End Nodes.

(** The reply sent when the graph run raises [e]. *)
Definition CRASH_REPLY (e : string) : string :=
  "Apologies, Sir. A hiccup in the RAG node: " +:+ e.


Definition NOTE : string := "Jarvis, note that the client meets Fridays".


End Orchestrator.

(** ** The supervisor ([watchdog_jarvis.py]) *)

Module Watchdog.

Definition POLL_INTERVAL : nat := 30.
Definition MAX_BACKOFF : nat := 120.

(** What the supervisor does to the outside, in order.  [Log] holds the
    message given to [log]; the stamp and the tag are added on writing. *)
Inductive Event : Type :=
| Log (msg : string)
| Sleep (seconds : nat)
| KillZombies (port : N)
| Launch (pid : nat)
| SetLowPriority (pid : nat).

(** The module's two globals, and the events so far. *)
Record Sup : Type := mkSup {
  _server_proc : option nat;
  _fail_count : nat;
  trace : list Event
}.

(** What one turn of the loop observes: whether port 8000 has a listener,
    what [subprocess.Popen] would do if called (a pid, or an exception), and
    whether the tracked process, if any, has exited. *)
Record Poll : Type := mkPoll {
  port_alive : bool;
  popen : outcome nat;
  child_exited : bool
}.

(** What appending a line to the health log does, by the events so far and
    the message: it returns, or raises. *)
Class Journal : Type := {
  write_line : list Event -> string -> outcome unit
}.

(** The log file that can always be written. *)
#[global] Instance writable : Journal := {| write_line _ _ := Returned tt |}.

Definition always_written `{J : Journal} : Prop :=
  forall evs msg, write_line evs msg = Returned tt.

Definition emit (e : Event) : ST Sup unit :=
  modify (fun s => mkSup (_server_proc s) (_fail_count s) (trace s ++ [e])).
Definition set_fail_count (n : nat) : ST Sup unit :=
  modify (fun s => mkSup (_server_proc s) n (trace s)).
Definition set_server_proc (p : option nat) : ST Sup unit :=
  modify (fun s => mkSup p (_fail_count s) (trace s)).

Section Supervise.
Context `{J : Journal}.

(** [log(msg)]: the line is printed, then the log file is opened and the
    line written. *)
Definition log (msg : string) : ST Sup unit :=
  ask (fun s => write_line (trace s) msg) ;;
  emit (Log msg).

(** [start_server()] *)
Definition start_server (p : Poll) : ST Sup nat :=
  emit (KillZombies 8000%N) ;;
  emit (Sleep 2) ;;
  pid <- call (popen p) ;;
  emit (Launch pid) ;;
  set_server_proc (Some pid) ;;
  emit (SetLowPriority pid) ;;
  log ("Mainframe restarted. PID=" +:+ pretty pid +:+ ".") ;;
  log "Apologies, Sir. The mainframe encountered a minor hiccup but I have recalibrated the arrays." ;;
  n <- get _fail_count ;;
  set_fail_count (n + 1) ;;
  ret pid.

(** [min(POLL_INTERVAL * (2 ** min(_fail_count, 3)), MAX_BACKOFF)] *)
Definition backoff_of (fail_count : nat) : nat :=
  Nat.min (POLL_INTERVAL * 2 ^ Nat.min fail_count 3) MAX_BACKOFF.

(** The branch of the loop body taken when the port has no listener. *)
Definition port_down (p : Poll) : ST Sup unit :=
  n <- get _fail_count ;;
  (if (3 <=? n)%nat then
     let cooldown := 300 in
     log ("THERMAL COOLDOWN: " +:+ pretty n +:+ " consecutive failures detected. "
          +:+ "Pausing " +:+ pretty cooldown +:+ "s to prevent overload, Sir.") ;;
     emit (Sleep cooldown) ;;
     set_fail_count 0 ;;
     log "Cooldown complete. Resuming normal monitoring."
   else ret tt) ;;
  n <- get _fail_count ;;
  let backoff := backoff_of n in
  log ("Port 8000 is down. Restart #" +:+ pretty (n + 1) +:+ " — backoff "
       +:+ pretty backoff +:+ "s.") ;;
  pid <- start_server p ;;
  set_server_proc (Some pid) ;;
  emit (Sleep backoff).

(** The branch taken when the port has a listener. *)
Definition port_up (p : Poll) : ST Sup unit :=
  set_fail_count 0 ;;
  proc <- get _server_proc ;;
  match proc with
  | Some pid =>
      if child_exited p then
        log ("Server process (PID " +:+ pretty pid +:+ ") exited. Restarting.") ;;
        pid' <- start_server p ;;
        set_server_proc (Some pid') ;;
        emit (Sleep 25)
      else ret tt
  | None => ret tt
  end.

(** One turn of [while True] in [main]. *)
Definition turn (p : Poll) : ST Sup unit :=
  try_except
    (if negb (port_alive p) then port_down p else port_up p)
    (fun e => log ("Watchdog error: " +:+ e)) ;;
  emit (Sleep POLL_INTERVAL).

(** The state [main] enters its loop in. *)
Definition boot : Sup :=
  mkSup None 0
        [Log "JARVIS Watchdog online. Monitoring port 8000 every 30s."; Sleep 20].

(** The loop run over a finite prefix of its observations. *)
Fixpoint turns (ps : list Poll) : ST Sup unit :=
  match ps with
  | [] => ret tt
  | p :: rest => turn p ;; turns rest
  end.



End Supervise.




End Watchdog.

(** ** Histories of the server *)

Module Runs.

(** What can happen to the server between two observations: a re-index
    (the run of a thread recorded in [threads], or of the file observer's),
    or a request to [/ask_jarvis]. *)
Inductive Activity : Type :=
| Reindex (env : Env)
| Ask (r : Orchestrator.Request).

Section History.
Context `{U : Unicode} `{OS : Machine}.

Definition perform (w : World) (a : Activity) : World :=
  match a with
  | Reindex env => snd (Index.reindex env w)
  | Ask r =>
      snd (Orchestrator.ask_jarvis (Orchestrator.req_env r) (Orchestrator.req_prior r)
             (Orchestrator.req_user r) (Orchestrator.req_text r) w)
  end.

Definition run (acts : list Activity) (w : World) : World :=
  fold_left perform acts w.

End History.


End Runs.

(** ** What a response leaves behind *)

(** The return value of a node that answers [a]. *)
Definition answered (a : string) : Update := mkUpdate None None (Some a) [AIMessage a].

(** The world after [response_node]: what was logged and which backends were
    invoked are the only differences, with one eviction thread started. *)
Definition after_response (env : Env) (w : World)
  (logged : list HealthMessage) (invoked : list Backend) : World :=
  mkWorld (self_documents w) (self_chunks w) (self_bm25_retriever w) (self_vector_store w)
          (data_dir w) (chroma_db w) (usage_log w)
          (health_log w ++ map (fun msg => (now_long env, msg)) logged)
          (threads w ++ [evict_target])
          (llm_calls w ++ invoked) (embed_calls w).

(** ** Sample inputs *)

(** The no-break space U+00A0, as UTF-8. *)
Definition NBSP : string := String "194"%char (String "160"%char EmptyString).

(** A note that begins with a no-break space and a space, and holds a learn
    cue and an action trigger as well. *)
Definition c5_message : BaseMessage :=
  HumanMessage (NBSP +:+ " Jarvis, note that I must REMEMBER to save this: open youtube  ").

Definition c5_state : GraphState :=
  mkGraphState
    [AIMessage "At your service, Sir."; c5_message]
    "" (Some [mkDocument "permits are filed on Mondays" "data/permits.md"]) None "Dwijas".

Definition c9_state (docs : option (list Document)) : GraphState :=
  mkGraphState [HumanMessage "tell me about permits"] "tell me about permits" docs None "Dwijas".

Module Samples.

(** Collaborators that answer, or raise, as the flags say, observed at the
    memory utilization [ram]; the splitter makes one chunk per document. *)
Definition env_at (ram : Q) (primary_up fallback_up : bool) : Env :=
  mkEnv ram
        (fun _ => if primary_up then Returned "All systems nominal."
                  else Raised "ConnectionError")
        (fun _ => if fallback_up then Returned "Running on reserve power."
                  else Raised "ConnectionError")
        (fun ds => ds)
        (fun _ => Returned tt)
        (fun store _ => Returned (take 3 store))
        (fun _ => Returned ["No results."])
        (Raised "ImportError")
        None
        "20240105_093000" "2024-01-05 09:30:00" "2024-01-05T09:30:00".

Definition calm : Env := env_at 25 true true.
Definition pressed : Env := env_at 45 true true.
Definition offline : Env := env_at 25 false false.

(** A server with an empty data directory and no logs. *)
Definition bare : World := mkWorld [] [] None None (Some []) [] None [] [] [] [].

(** Two text files and an image in the data directory, nothing indexed. *)
Definition stocked : World :=
  mkWorld [] [] None None
          (Some [("permits.md", Returned "permits are filed on Mondays");
                 ("logo.png", Returned "");
                 ("clients.txt", Returned "the client meets Fridays")])
          [] None [] [] [] [].

(** One file in the data directory, three chunks left in the collection by
    an earlier, larger corpus. *)
Definition stale : World :=
  mkWorld [] [] None None
          (Some [("permits.md", Returned "permits are filed on Mondays")])
          [mkDocument "a" "data/a.md"; mkDocument "b" "data/b.md";
           mkDocument "c" "data/c.md"]
          None [] [] [] [].



Definition chat : GraphState :=
  mkGraphState [HumanMessage "tell me about permits"] "tell me about permits"
               (Some [mkDocument "permits are filed on Mondays" "data/permits.md"])
               None "Dwijas".



End Samples.

(** ** The action engine ([action_engine.py]) *)

Module ActionEngine.

(** The desktop the engine acts on: the file system test, the two ways of
    launching, and the two dispatchers that drive the browser and the
    WhatsApp window. *)
Record Desk : Type := mkDesk {
  path_exists : string -> bool;                 (* [os.path.exists] *)
  popen : string -> outcome unit;               (* [subprocess.Popen([path])] *)
  startfile : string -> outcome unit;           (* [os.startfile] *)
  play_music : string -> outcome string;
  send_whatsapp : string -> string -> outcome string
}.

Definition APP_PATHS : gmap string string :=
  {[ "figma" := "C:\Users\admin\AppData\Local\Figma\Figma.exe";
     "vscode" := "C:\Users\admin\AppData\Local\Programs\Microsoft VS Code\Code.exe";
     "whatsapp" := "C:\Users\admin\AppData\Local\WhatsApp\WhatsApp.exe";
     "spotify" := "C:\Users\admin\AppData\Roaming\Spotify\Spotify.exe";
     "notepad" := "C:\Windows\System32\notepad.exe";
     "explorer" := "C:\Windows\explorer.exe" ]}.

Section Dispatch.
Context `{U : Unicode}.

(** [detect_action(text)] *)
Definition detect_action (text : string) : option string :=
  let t := Py.strip (Py.lower text) in
  if Py.startswith t "play " then Some "play"
  else if Py.startswith t "open " then Some "open"
  else if Py.contains "send whatsapp" t then Some "whatsapp"
  else if Py.startswith t "audit " then Some "audit"
  else if Py.contains "open youtube" t then Some "play"
  else None.

(** [open_app(app_name)] *)
Definition open_app (desk : Desk) (app_name : string) : outcome string :=
  let key := Py.strip (Py.lower app_name) in
  let known := match APP_PATHS !! key with
               | Some path => if negb (String.eqb path "") && path_exists desk path
                              then Some path else None
               | None => None
               end in
  match known with
  | Some path =>
      match popen desk path with
      | Returned _ => Returned (Py.title app_name +:+ " is launching, Sir.")
      | Raised e => Raised e
      end
  | None =>
      match startfile desk key with
      | Returned _ => Returned ("Attempting to open " +:+ app_name +:+ ", Sir.")
      | Raised e => Returned ("Could not open " +:+ app_name +:+ ": " +:+ e)
      end
  end.

Definition AUDIT_REQUESTED : string := "AUDIT_REQUESTED:".

(** [audit_file(filepath)] *)
Definition audit_file (desk : Desk) (filepath : string) : string :=
  if negb (path_exists desk filepath) then "File not found: " +:+ filepath
  else match startfile desk filepath with
       | Returned _ => AUDIT_REQUESTED +:+ filepath
       | Raised e => "Could not open file: " +:+ e
       end.

Definition WHATSAPP_FORMAT : string :=
  "Could not parse WhatsApp command. Format: 'send whatsapp to [name]: [message]'".

(** The [try] block of the WhatsApp branch. *)
Definition whatsapp_branch (desk : Desk) (tl : string) : outcome string :=
  match PyText.split_1 tl "send whatsapp to" with
  | Raised e => Raised e
  | Returned after =>
      let contact := Py.title (Py.strip (PyText.split_0 after ":")) in
      match (if Py.contains ":" after
             then match PyText.split_once_1 after ":" with
                  | Returned m => Returned (Py.strip m)
                  | Raised e => Raised e
                  end
             else Returned "Hello") with
      | Raised e => Raised e
      | Returned message => send_whatsapp desk contact message
      end
  end.

(** [parse_and_execute(text)] *)
Definition parse_and_execute (desk : Desk) (text : string) : outcome (option string) :=
  let t := Py.strip text in
  match detect_action t with
  | None => Returned None
  | Some action =>
      let tl := Py.lower t in
      if String.eqb action "play" then
        let query := if Py.startswith tl "play " then Py.strip (Py.from 5 t) else t in
        match play_music desk query with
        | Returned r => Returned (Some r)
        | Raised e => Raised e
        end
      else if String.eqb action "open" then
        let app := Py.strip (Py.from 5 t) in
        match open_app desk app with
        | Returned r => Returned (Some r)
        | Raised e => Raised e
        end
      else if String.eqb action "whatsapp" then
        match whatsapp_branch desk tl with
        | Returned r => Returned (Some r)
        | Raised _ => Returned (Some WHATSAPP_FORMAT)
        end
      else if String.eqb action "audit" then
        let filepath := Py.strip (Py.from 6 t) in
        Returned (Some (audit_file desk filepath))
      else Returned None
  end.

End Dispatch.

End ActionEngine.


(** ** Start-up of the server process *)

Module Startup.

(** What [subprocess.Popen(["ollama", "serve"])] does. *)
Inductive Spawn : Type :=
| Spawned
| BinaryNotFound                 (* [FileNotFoundError] *)
| SpawnFailed (e : string).      (* any other exception *)

(** The machine [_ensure_ollama_running] runs on: whether the [k]-th GET it
    sends (from 0) is answered, and what launching does. *)
Record Host : Type := mkHost {
  responsive : nat -> bool;
  spawn : Spawn
}.

(** [Launch] is the call of [subprocess.Popen], whatever comes of it. *)
Inductive Event : Type :=
| Get (answered : bool)
| Launch
| Sleep (seconds : nat)
| Print (msg : string).

(** GETs sent so far, and the events, in order. *)
Record Boot : Type := mkBoot {
  gets : nat;
  events : list Event
}.

Definition emit (e : Event) : ST Boot unit :=
  modify (fun s => mkBoot (gets s) (events s ++ [e])).

(** [_requests.get(url, timeout=2)] inside its [try]. *)
Definition probe (host : Host) : ST Boot bool :=
  fun s => let ok := responsive host (gets s) in
           (Returned ok, mkBoot (S (gets s)) (events s ++ [Get ok])).

(** The body of [for attempt in range(3)], for the attempts still to make;
    returns whether the function has returned from inside the loop. *)
Fixpoint attempts (host : Host) (todo : list nat) : ST Boot bool :=
  match todo with
  | [] => ret false
  | attempt :: rest =>
      ok <- probe host ;;
      if ok then
        emit (Print "[Ollama]: Responsive — all systems go, Sir.") ;;
        ret true
      else
        returned <-
          (if (attempt =? 0)%nat then
             emit (Print "[Ollama]: Not detected. Attempting to start 'ollama serve'...") ;;
             emit Launch ;;
             match spawn host with
             | Spawned => ret false
             | BinaryNotFound =>
                 emit (Print "[Ollama]: 'ollama' binary not found. Ensure Ollama is installed.") ;;
                 ret true
             | SpawnFailed e => raise e
             end
           else ret false) ;;
        if (returned : bool) then ret true
        else emit (Sleep 5) ;; attempts host rest
  end.

(** [_ensure_ollama_running()] *)
Definition _ensure_ollama_running (host : Host) : ST Boot unit :=
  returned <- attempts host [0; 1; 2]%nat ;;
  if (returned : bool) then ret tt
  else
    ok <- probe host ;;
    if ok then emit (Print "[Ollama]: Now responsive after delayed start.")
    else emit (Print "[Ollama]: WARNING — Ollama still unreachable after 15s. LLM calls will fail.").

Definition launches (evs : list Event) : nat :=
  length (flat_map (fun e => match e with Launch => [tt] | _ => [] end) evs).

Definition slept (evs : list Event) : nat :=
  list_sum (flat_map (fun e => match e with Sleep n => [n] | _ => [] end) evs).

Definition probes (evs : list Event) : list bool :=
  flat_map (fun e => match e with Get ok => [ok] | _ => [] end) evs.

End Startup.

(** ** The other endpoints of [demo1.py] *)

Module Endpoints.
Import Telemetry Orchestrator.

Definition TEACH_STATUS : string :=
  "Knowledge committed and re-indexing in progress, Sir.".

(** The file [teach] writes, and its text. *)
Definition taught_file (env : Env) : string := "injected_" +:+ now_compact env +:+ ".md".
Definition taught_text (env : Env) (knowledge : string) : string :=
  "# Injected Knowledge - " +:+ now_compact env +:+ nl +:+ nl +:+ knowledge +:+ nl.

Section Serve.
Context `{U : Unicode} `{OS : Machine}.

(** [teach(payload)]; the reply is the value under ["status"]. *)
Definition teach (env : Env) (knowledge : string) : M string :=
  write (taught_file env)
        (put_file (taught_file env) (taught_text env knowledge)) ;;
  start_thread reindex_target ;;
  ret TEACH_STATUS.



End Serve.

End Endpoints.

(** ** The supervisor's view of the connection table *)

Module Ports.

(** One entry of [psutil.net_connections(kind="inet")].  [laddr] is the
    local port, or [None] for a socket without a local address, whose
    [laddr] is the empty tuple: [conn.laddr.port] raises on it. *)
Record Conn : Type := mkConn {
  laddr : option N;
  status : string;
  pid : option nat
}.

(** The loop of [is_port_alive]: it returns at the first listener on the
    port, and an entry without a local address ends it in the handler. *)
Fixpoint listening (conns : list Conn) (port : N) : bool :=
  match conns with
  | [] => false
  | conn :: rest =>
      match laddr conn with
      | None => false
      | Some local =>
          if N.eqb local port && String.eqb (status conn) "LISTEN" then true
          else listening rest port
      end
  end.

(** [is_port_alive(port)]; [table] is what [net_connections] returns or
    raises. *)
Definition is_port_alive (table : outcome (list Conn)) (port : N) : bool :=
  match table with
  | Returned conns => listening conns port
  | Raised _ => false
  end.

(** [conn.laddr.port == port and conn.pid] on an entry with a local
    address: a pid of [None] or [0] is falsy. *)
Definition zombie (port local : N) (conn : Conn) : option nat :=
  if N.eqb local port then
    match pid conn with
    | Some p => if (p =? 0)%nat then None else Some p
    | None => None
    end
  else None.

Inductive Signal : Type :=
| Kill (pid : nat) (done : bool)       (* [psutil.Process(pid).kill()], and whether it returned *)
| Logged (msg : string).                (* [log(msg)]; what it raises is dropped with the kill's *)

(** The loop of [kill_zombies]; [kill] tells whether killing a pid returns
    or raises.  An entry without a local address ends the loop in the outer
    handler. *)
Fixpoint sweep (conns : list Conn) (kill : nat -> outcome unit) (port : N) : list Signal :=
  match conns with
  | [] => []
  | conn :: rest =>
      match laddr conn with
      | None => []
      | Some local =>
          match zombie port local conn with
          | Some p =>
              match kill p with
              | Returned _ =>
                  [Kill p true;
                   Logged ("Cleared zombie PID " +:+ pretty p +:+ " on port "
                           +:+ pretty port +:+ ".")]
              | Raised _ => [Kill p false]
              end
          | None => []
          end ++ sweep rest kill port
      end
  end.

(** [kill_zombies(port)] *)
Definition kill_zombies (table : outcome (list Conn)) (kill : nat -> outcome unit) (port : N)
  : list Signal :=
  match table with
  | Returned conns => sweep conns kill port
  | Raised _ => []
  end.

Definition killed (signals : list Signal) : list nat :=
  flat_map (fun s => match s with Kill p _ => [p] | Logged _ => [] end) signals.

(** The entries the loops reach: those before the first one without a local
    address. *)
Fixpoint reached (conns : list Conn) : list Conn :=
  match conns with
  | [] => []
  | conn :: rest =>
      match laddr conn with
      | None => []
      | Some _ => conn :: reached rest
      end
  end.

End Ports.

(** ** Counting over histories and directories *)

Module Histories.


(** What the directory holds under a name: the first entry of that name. *)
Fixpoint file_text (name : string) (files : list (string * outcome string))
  : option (outcome string) :=
  match files with
  | [] => None
  | f :: rest => if String.eqb (fst f) name then Some (snd f) else file_text name rest
  end.

End Histories.

(** ** Terminal nodes *)


(** The knowledge file [knowledge_inject_node] writes for a message, and its
    text, as the node computes them. *)
Definition knowledge_topic `{U : Unicode} (msg : string) : string :=
  Py.replace (Py.replace (Py.upto 40 (Orchestrator.strip_phrases msg)) " " "_") "/" "-".
Definition knowledge_file `{U : Unicode} (env : Env) (msg : string) : string :=
  "knowledge_" +:+ now_compact env +:+ "_" +:+ knowledge_topic msg +:+ ".md".
Definition knowledge_text `{U : Unicode} (env : Env) (msg : string) : string :=
  "# Knowledge Entry — " +:+ now_long env +:+ nl +:+ nl
  +:+ Orchestrator.strip_phrases msg +:+ nl.

(** The line [self_learn_node] appends for a message. *)
Definition learned_line `{U : Unicode} (env : Env) (msg : string) : string :=
  nl +:+ "- [" +:+ now_long env +:+ "] "
  +:+ Py.strip (Py.replace (Py.replace (Py.lower msg) "remember" "") "save this" "").

(** ** Runs of the supervisor *)

Module Pacing.
Import Watchdog.



(** The state reached from [s] by the polls [ps]. *)
Definition reach `{J : Journal} (ps : list Poll) (s : Sup) : Sup := snd (turns ps s).

End Pacing.

(** ** More sample inputs *)

Module Cases.

Definition say (text : string) (docs : option (list Document)) : GraphState :=
  mkGraphState [AIMessage "At your service, Sir."; HumanMessage text] text docs None "Dwijas".

(** Collaborators as in [Samples.calm], except that the embedder and the
    similarity search raise, the action engine is [parse] and the vision
    module is [vision]. *)
Definition env_with (ram : Q) (parse : outcome (string -> outcome (option string)))
    (vision : option (string -> outcome string)) : Env :=
  mkEnv ram
        (fun _ => Returned "All systems nominal.")
        (fun _ => Raised "ConnectionError")
        (fun ds => ds)
        (fun _ => Raised "EmbeddingError")
        (fun _ _ => Raised "ChromaError")
        (fun _ => Raised "RatelimitException")
        parse vision
        "20240105_093000" "2024-01-05 09:30:00" "2024-01-05T09:30:00".

(** A desktop on which every file exists and everything opens. *)
Definition desk : ActionEngine.Desk :=
  ActionEngine.mkDesk (fun _ => true) (fun _ => Returned tt) (fun _ => Returned tt)
                      (fun q => Returned ("Playing '" +:+ q +:+ "' on YouTube, Sir."))
                      (fun contact msg =>
                         Returned ("Message sent to " +:+ contact +:+ " on WhatsApp, Sir.")).

Definition engine_env : Env :=
  env_with 25 (Returned (ActionEngine.parse_and_execute desk))
           (Some (fun path => Returned ("Reviewed " +:+ path +:+ ", Sir."))).

Definition mute_env : Env := env_with 25 (Returned (fun _ => Returned None)) None.

Definition entry (query : string) : line :=
  Object (Telemetry.usage_entry Samples.calm "Dwijas" query "ok").

(** A usage log with three uses of one query and a line that is not JSON. *)
Definition torn_log : World :=
  set_usage_log (Some [entry "status report"; entry "status report"; Unreadable;
                       entry "status report"]) Samples.bare.

(** A usage log with two uses of one query. *)
Definition twice_asked : World :=
  set_usage_log (Some [entry "status report"; Blank; entry "Status Report"]) Samples.bare.

(** A server whose vector store is open over a collection of one chunk. *)
Definition indexed : World :=
  set_vector_store (Some Index.open_chroma)
    (set_chroma_db [mkDocument "permits are filed on Mondays" "data/permits.md"]
                   Samples.stocked).


(** Only an image in the data directory; three chunks in the collection. *)
Definition no_corpus : World :=
  set_data_dir (Some [("logo.png", Returned "")]) Samples.stale.

(** A machine on which the log files cannot be opened. *)
Definition read_only : Machine :=
  {| append_line _ _ := Raised "PermissionError: [Errno 13] Permission denied";
     open_for_writing _ _ := Returned tt;
     start _ _ := Returned tt |}.

Definition launch_fails : Watchdog.Poll :=
  Watchdog.mkPoll false (Raised "OSError: venv missing") false.


Definition down_with (pid : nat) : Watchdog.Poll := Watchdog.mkPoll false (Returned pid) false.

(** Ollama answering from the third GET on, launched without trouble. *)
Definition slow_host : Startup.Host :=
  Startup.mkHost (fun k => (2 <=? k)%nat) Startup.Spawned.
Definition up_host : Startup.Host := Startup.mkHost (fun _ => true) Startup.Spawned.
Definition bare_host : Startup.Host := Startup.mkHost (fun _ => false) Startup.BinaryNotFound.
Definition broken_host : Startup.Host :=
  Startup.mkHost (fun _ => false) (Startup.SpawnFailed "PermissionError").

(** A listener on 8000 owned by process 41, a client socket of process 57 on
    the same local port, and an unrelated listener. *)
Definition table : outcome (list Ports.Conn) :=
  Returned [Ports.mkConn (Some 8000%N) "LISTEN" (Some 41);
            Ports.mkConn (Some 8000%N) "ESTABLISHED" (Some 57);
            Ports.mkConn (Some 11434%N) "LISTEN" (Some 9)].

(** The same listener listed after a socket that has no local address. *)
Definition unbound_first : outcome (list Ports.Conn) :=
  Returned [Ports.mkConn None "NONE" (Some 12);
            Ports.mkConn (Some 8000%N) "LISTEN" (Some 41)].

End Cases.


(** * Properties *)

(** ** The monad *)

Ltac run :=
  unfold bind, ret, modify, get, call, ask, raise, try_except; simpl.

(** ** Frame lemmas *)

Section Keeps.
Context {S B : Type} (f : S -> B).

Lemma keeps_ret {A} (a : A) : keeps f (ret a).
Proof. intros s. reflexivity. Qed.

Lemma keeps_raise {A} (e : string) : keeps f (raise (A := A) e).
Proof. intros s. reflexivity. Qed.

Lemma keeps_call {A} (r : outcome A) : keeps f (call r).
Proof. intros s. reflexivity. Qed.

Lemma keeps_ask {A} (g : S -> outcome A) : keeps f (ask g).
Proof. intros s. reflexivity. Qed.

Lemma keeps_get {A} (g : S -> A) : keeps f (get g).
Proof. intros s. reflexivity. Qed.

Lemma keeps_modify (g : S -> S) : (forall s, f (g s) = f s) -> keeps f (modify g).
Proof. intros H s. apply H. Qed.

Lemma keeps_bind {A C} (m : ST S A) (k : A -> ST S C) :
  keeps f m -> (forall a, keeps f (k a)) -> keeps f (bind m k).
Proof.
  intros Hm Hk s. unfold bind. specialize (Hm s).
  destruct (m s) as [[a|e] s']; simpl in *; [|exact Hm].
  rewrite Hk. exact Hm.
Qed.

Lemma keeps_try {A} (m : ST S A) (h : string -> ST S A) :
  keeps f m -> (forall e, keeps f (h e)) -> keeps f (try_except m h).
Proof.
  intros Hm Hh s. unfold try_except. specialize (Hm s).
  destruct (m s) as [[a|e] s']; simpl in *; [exact Hm|].
  rewrite Hh. exact Hm.
Qed.

End Keeps.

Ltac frame :=
  repeat first
    [ apply keeps_ret | apply keeps_raise | apply keeps_call | apply keeps_ask | apply keeps_get
    | apply keeps_bind; [|intros ?]
    | apply keeps_try; [|intros ?]
    | apply keeps_modify; intros ?; solve [auto]
    | match goal with
      | |- keeps _ (match ?x with _ => _ end) => destruct x
      | |- keeps _ (let _ := _ in _) => cbv zeta
      end ].

(** ** The claims of the specification *)

Section Claims.
Context `{U : Unicode}.

(** ** The router *)

Section RouterFacts.
Import Router.

Variable state : GraphState.
Variable m : BaseMessage.
Hypothesis Hlast : last (messages state) = Some m.

Let msg : string := Py.strip (Py.lower (content m)).

Lemma router_reads_last : router state = Returned (route msg (documents state)).
Proof. unfold router. now rewrite Hlast. Qed.

Lemma route_label (docs : option (list Document)) (s : string) :
  route s docs ∈ ["inject"; "learn"; "act"; "web"; "answer"].
Proof.
  unfold route.
  repeat match goal with
         | |- context [if ?b then _ else _] => destruct b
         | |- context [match ?d with _ => _ end] => destruct d
         end; set_solver.
Qed.

Lemma edges_cover (label : string) :
  label ∈ ["inject"; "learn"; "act"; "web"; "answer"] -> is_Some (edges !! label).
Proof.
  intros H. repeat (apply elem_of_cons in H as [->|H]); try (vm_compute; eauto).
  inversion H.
Qed.

(** C5. A message that, lowercased and stripped, begins with an inject
    trigger phrase is routed to "inject" (the knowledge-injection node)
    whatever else it contains and whatever retrieval returned; and the
    router always returns one of the five labels, each of which the graph
    maps to a node. *)
Theorem C5_inject_precedence :
  (Py.any (fun t => Py.startswith msg t) inject_triggers = true ->
     router state = Returned "inject"
     /\ edges !! "inject" = Some "knowledge_inject")
  /\ (exists label, router state = Returned label
        /\ label ∈ ["inject"; "learn"; "act"; "web"; "answer"]
        /\ is_Some (edges !! label)).
Proof.
  rewrite router_reads_last. split.
  - intros Hpre. unfold route. rewrite Hpre. split; reflexivity.
  - exists (route msg (documents state)).
    split; [reflexivity|]. split; [apply route_label|].
    apply edges_cover, route_label.
Qed.

(** C9. A message with no inject, learn or action cue is routed to "web"
    (web augmentation) exactly when the state holds no retrieved document,
    and to "answer" (respond) exactly when it holds at least one. *)
Theorem C9_web_or_respond :
  Py.any (fun t => Py.startswith msg t) inject_triggers = false ->
  Py.contains "remember" msg || Py.contains "save this" msg = false ->
  Py.any (fun t => Py.startswith msg t || Py.contains t msg) action_triggers = false ->
  (router state = Returned "web" <-> default [] (documents state) = [])
  /\ (router state = Returned "answer" <-> default [] (documents state) <> []).
Proof.
  intros Hi Hl Ha. rewrite router_reads_last. unfold route.
  rewrite Hi, Hl, Ha.
  destruct (documents state) as [[|d ds]|]; simpl; split; split;
    intros H; try reflexivity; try congruence; try discriminate.
Qed.

End RouterFacts.

(** ** The memory guard *)

Lemma above_guard_true (r : Q) : Index.above_guard r = true <-> (40 < r)%Q.
Proof.
  unfold Index.above_guard. rewrite negb_true_iff.
  split.
  - intros H. apply Qnot_le_lt. intros Hle.
    apply Qle_bool_iff in Hle. congruence.
  - intros H. destruct (Qle_bool r 40) eqn:E; [|reflexivity].
    apply Qle_bool_iff in E. exfalso. exact (Qlt_not_le _ _ H E).
Qed.

Lemma above_guard_false (r : Q) : Index.above_guard r = false <-> (r <= 40)%Q.
Proof.
  unfold Index.above_guard. rewrite negb_false_iff. apply Qle_bool_iff.
Qed.

Section IndexFacts.
Import Index.

Context `{OS : Machine}.
Variable env : Env.
Variable w : World.

Let ram : Q := virtual_memory_percent env.
Let docs : list Document := load_documents DATA_DIR w.

(** The chunk list a rebuild below the threshold computes. *)
Let chunks : list Document :=
  match docs with
  | [] => []
  | _ :: _ => split_documents env docs
  end.

Let existing : nat := collection_count w.

(** A rebuild above the threshold: what it leaves behind when the guard
    event is written, and when writing it raises. *)
Lemma guarded_rebuild_on :
  (40 < ram)%Q ->
  _build_index env w =
  match append_line HEALTH_LOG w with
  | Returned _ =>
      (Returned tt,
       mkWorld [] [] None (Some open_chroma) (data_dir w) (chroma_db w) (usage_log w)
               (health_log w ++ [(now_long env, MemGuardIndex ram)])
               (threads w) (llm_calls w) (embed_calls w))
  | Raised e => (Raised e, w)
  end.
Proof.
  intros H. apply above_guard_true in H.
  unfold _build_index. fold ram. rewrite H.
  unfold Telemetry._log_health, bind, ask.
  destruct (append_line HEALTH_LOG w); reflexivity.
Qed.

(** A rebuild at or below the threshold, by cases on the corpus, the
    stored count and the embedder. *)
Lemma open_rebuild :
  (ram <= 40)%Q ->
  _build_index env w =
  match docs with
  | [] =>
      (Returned tt,
       mkWorld [] [] None None (data_dir w) (chroma_db w) (usage_log w)
               (health_log w) (threads w) (llm_calls w) (embed_calls w))
  | _ :: _ =>
      match chunks with
      | [] =>
          (Raised NO_CHUNKS,
           mkWorld docs [] (self_bm25_retriever w) (self_vector_store w) (data_dir w)
                   (chroma_db w) (usage_log w)
                   (health_log w) (threads w) (llm_calls w) (embed_calls w))
      | _ :: _ =>
          if (existing <? length chunks)%nat then
            match embed env (drop existing chunks) with
            | Returned _ =>
                (Returned tt,
                 mkWorld docs chunks (Some chunks) (Some open_chroma) (data_dir w)
                         (chroma_db w ++ drop existing chunks) (usage_log w)
                         (health_log w) (threads w) (llm_calls w)
                         (embed_calls w ++ [drop existing chunks]))
            | Raised e =>
                (Raised e,
                 mkWorld docs chunks (Some chunks) (Some open_chroma) (data_dir w)
                         (chroma_db w) (usage_log w)
                         (health_log w) (threads w) (llm_calls w)
                         (embed_calls w ++ [drop existing chunks]))
            end
          else
            (Returned tt,
             mkWorld docs chunks (Some chunks) (Some open_chroma) (data_dir w)
                     (chroma_db w) (usage_log w)
                     (health_log w) (threads w) (llm_calls w) (embed_calls w))
      end
  end.
Proof.
  intros H. apply above_guard_false in H.
  unfold _build_index. fold ram. rewrite H.
  unfold chunks, existing. run. fold docs.
  destruct docs as [|d ds] eqn:Ed; [reflexivity|].
  destruct (split_documents env (d :: ds)) as [|c cs] eqn:Ec; [reflexivity|].
  unfold add_documents, collection_count. run.
  destruct (_ <? _)%nat; [|reflexivity].
  destruct (embed env _); reflexivity.
Qed.

End IndexFacts.

Lemma guarded_rebuild (env : Env) (w : World) :
  (40 < virtual_memory_percent env)%Q ->
  Index._build_index env w =
  (Returned tt,
   mkWorld [] [] None (Some Index.open_chroma) (data_dir w) (chroma_db w) (usage_log w)
           (health_log w ++ [(now_long env, MemGuardIndex (virtual_memory_percent env))])
           (threads w) (llm_calls w) (embed_calls w)).
Proof. intros H. now rewrite (guarded_rebuild_on env w H). Qed.

Section GovernorFacts.
Import Governor.

Variable env : Env.
Variable state : GraphState.
Variable w : World.

Let ram : Q := virtual_memory_percent env.
Lemma response_guarded :
  (40 < ram)%Q ->
  response_node env state w =
  match llm_fallback env (prompt state) with
  | Returned a =>
      (Returned (answered a), after_response env w [MemGuardInference ram] [fallback])
  | Raised e =>
      (Returned (answered APOLOGY_MEMORY),
       after_response env w [MemGuardInference ram; FallbackFailedUnderGuard e] [fallback])
  end.
Proof.
  intros H. apply above_guard_true in H.
  unfold response_node. fold ram. rewrite H.
  unfold invoke, start_thread, Telemetry._log_health, after_response, answered. run.
  destruct (llm_fallback env (prompt state)); simpl;
    rewrite <- ?app_assoc; reflexivity.
Qed.

Lemma response_open :
  (ram <= 40)%Q ->
  response_node env state w =
  match llm env (prompt state) with
  | Returned a => (Returned (answered a), after_response env w [] [primary])
  | Raised e =>
      match llm_fallback env (prompt state) with
      | Returned a =>
          (Returned (answered a), after_response env w [PrimaryFailed e] [primary; fallback])
      | Raised e2 =>
          (Returned (answered APOLOGY_OFFLINE),
           after_response env w [PrimaryFailed e; FallbackAlsoFailed e2] [primary; fallback])
      end
  end.
Proof.
  intros H. apply above_guard_false in H.
  unfold response_node. fold ram. rewrite H.
  unfold invoke, start_thread, Telemetry._log_health, after_response, answered. run.
  destruct (llm env (prompt state)); simpl.
  - rewrite app_nil_r. reflexivity.
  - destruct (llm_fallback env (prompt state)); simpl;
      rewrite <- ?app_assoc; reflexivity.
Qed.

End GovernorFacts.

(** *** On any machine *)

Section GovernorFaults.
Import Governor.

Context `{OS : Machine}.
Variable env : Env.
Variable state : GraphState.
Variable w : World.

Let ram : Q := virtual_memory_percent env.

Ltac open_node :=
  unfold response_node, Telemetry._log_health, start_thread, invoke;
  unfold bind, ret, modify, get, call, ask, raise, try_except.

(** With the log appended to and the thread started, the node does what it
    does on the sound machine. *)
Lemma response_node_on_sound :
  logs_writable -> threads_start ->
  response_node env state w = response_node (OS := sound) env state w.
Proof.
  intros Hlog Hth. open_node.
  destruct (Index.above_guard (virtual_memory_percent env)); rewrite ?Hlog;
    cbn [append_line start sound].
  - destruct (llm_fallback env _); rewrite ?Hlog, ?Hth; reflexivity.
  - destruct (llm env _); rewrite ?Hlog, ?Hth; try reflexivity.
    destruct (llm_fallback env _); rewrite ?Hlog, ?Hth; reflexivity.
Qed.

(** C6. On a machine where the appends to the health log succeed and the
    eviction thread starts, [response_node] returns an answer and never
    raises, whatever the two backends do: when the primary backend is tried
    and fails, the fallback is invoked exactly once after it; when that
    fails too the answer is the fixed apology and the health log gains both
    failures, in order.  On any machine, an exception that leaves
    [response_node] is one that an append to the health log or the start of
    the eviction thread raised: what a backend raises never leaves it. *)
Theorem C6_generate_never_raises :
  (logs_writable -> threads_start ->
   (exists a, fst (response_node env state w) = Returned (answered a))
   /\ (forall e, (ram <= 40)%Q -> llm env (prompt state) = Raised e ->
         llm_calls (snd (response_node env state w)) = llm_calls w ++ [primary; fallback]
         /\ (forall a, llm_fallback env (prompt state) = Returned a ->
               fst (response_node env state w) = Returned (answered a))
         /\ (forall e2, llm_fallback env (prompt state) = Raised e2 ->
               fst (response_node env state w) = Returned (answered APOLOGY_OFFLINE)
               /\ health_log (snd (response_node env state w))
                  = health_log w ++ [(now_long env, PrimaryFailed e);
                                     (now_long env, FallbackAlsoFailed e2)])))
  /\ (forall e, fst (response_node env state w) = Raised e ->
        exists w0, append_line HEALTH_LOG w0 = Raised e
                   \/ start evict_target w0 = Raised e).
Proof.
  split.
  - intros Hlog Hth. rewrite (response_node_on_sound Hlog Hth). split.
    + destruct (Qlt_le_dec 40 ram) as [Hg|Hg].
      * rewrite (response_guarded env state w Hg).
        destruct (llm_fallback env _); simpl; eauto.
      * rewrite (response_open env state w Hg).
        destruct (llm env _); [simpl; eauto|].
        destruct (llm_fallback env _); simpl; eauto.
    + intros e Hg He. rewrite (response_open env state w Hg), He.
      split; [destruct (llm_fallback env _); reflexivity|].
      split.
      * intros a Ha. rewrite Ha. reflexivity.
      * intros e2 He2. rewrite He2. split; reflexivity.
  - intros e. open_node.
    repeat match goal with
           | |- context [if ?b then _ else _] => destruct b
           | |- context [match append_line HEALTH_LOG ?x with _ => _ end] =>
               destruct (append_line HEALTH_LOG x) eqn:?
           | |- context [match start evict_target ?x with _ => _ end] =>
               destruct (start evict_target x) eqn:?
           | |- context [match llm env ?x with _ => _ end] => destruct (llm env x)
           | |- context [match llm_fallback env ?x with _ => _ end] =>
               destruct (llm_fallback env x)
           end; cbn [fst]; intros H; try discriminate H; injection H as <-; eauto.
Qed.

End GovernorFaults.



Lemma load_documents_same_dir (folder : string) (w1 w : World) :
  data_dir w1 = data_dir w ->
  Index.load_documents folder w1 = Index.load_documents folder w.
Proof. intros H. unfold Index.load_documents. now rewrite H. Qed.

(** A rebuild that finds the store at least as long as the chunk list embeds
    and inserts nothing. *)
Lemma rebuild_up_to_date (env : Env) (w : World) :
  (virtual_memory_percent env <= 40)%Q ->
  (Index.load_documents Index.DATA_DIR w <> [] ->
   split_documents env (Index.load_documents Index.DATA_DIR w) <> []) ->
  (length (match Index.load_documents Index.DATA_DIR w with
           | [] => []
           | _ :: _ => split_documents env (Index.load_documents Index.DATA_DIR w)
           end) <= length (chroma_db w))%nat ->
  fst (Index._build_index env w) = Returned tt
  /\ Index.inserted w (snd (Index._build_index env w)) = []
  /\ embed_calls (snd (Index._build_index env w)) = embed_calls w.
Proof.
  intros Hg Hsome Hlen. rewrite (open_rebuild env w Hg). unfold Index.inserted.
  destruct (Index.load_documents Index.DATA_DIR w) as [|d ds].
  - simpl. now rewrite drop_all.
  - destruct (split_documents env (d :: ds)) as [|c cs] eqn:Ec; [now elim Hsome|].
    unfold Index.collection_count.
    destruct (_ <? _)%nat eqn:Elt; [apply Nat.ltb_lt in Elt; lia|].
    simpl. now rewrite drop_all.
Qed.

(** C4. Two rebuilds in succession at or below the threshold,
    the first returning normally, the corpus and the splitter unchanged: the
    second returns normally, hands nothing to the embedder and inserts
    nothing.  After the first call the stored count is at least the chunk
    count just computed, and equal to it if the store held no more chunks
    than that before the call. *)
Theorem C4_rebuild_idempotent (env1 env2 : Env) (w : World) :
  let docs := Index.load_documents Index.DATA_DIR w in
  let chunks := match docs with [] => [] | _ :: _ => split_documents env1 docs end in
  let first := Index._build_index env1 w in
  let second := Index._build_index env2 (snd first) in
  (virtual_memory_percent env1 <= 40)%Q ->
  (virtual_memory_percent env2 <= 40)%Q ->
  split_documents env2 docs = split_documents env1 docs ->
  fst first = Returned tt ->
  fst second = Returned tt
  /\ Index.inserted (snd first) (snd second) = []
  /\ embed_calls (snd second) = embed_calls (snd first)
  /\ (length chunks <= Index.collection_count (snd first))%nat
  /\ ((Index.collection_count w <= length chunks)%nat ->
      Index.collection_count (snd first) = length chunks).
Proof.
  intros docs chunks first second H1 H2 Hsplit Hret.
  assert (Hfirst : data_dir (snd first) = data_dir w
                   /\ (length chunks <= length (chroma_db (snd first)))%nat
                   /\ ((length (chroma_db w) <= length chunks)%nat ->
                       length (chroma_db (snd first)) = length chunks)).
  { revert Hret. subst first. rewrite (open_rebuild env1 w H1). fold docs.
    destruct docs as [|d ds] eqn:Ed.
    - subst chunks. simpl. intros _. repeat split; lia.
    - fold chunks. destruct chunks as [|c cs] eqn:Ec; [discriminate|].
      unfold Index.collection_count.
      destruct (_ <? _)%nat eqn:Elt.
      + apply Nat.ltb_lt in Elt.
        destruct (embed env1 _); simpl; intros Hret; [|discriminate Hret].
        rewrite length_app, length_drop. repeat split; simpl in *; lia.
      + apply Nat.ltb_ge in Elt. simpl. intros _. repeat split; simpl in *; lia. }
  assert (Hsome : docs <> [] -> split_documents env1 docs <> []).
  { intros Hd. revert Hret. subst first. rewrite (open_rebuild env1 w H1). fold docs.
    destruct docs as [|d ds] eqn:Ed; [now elim Hd|].
    destruct (split_documents env1 (d :: ds)); [discriminate|]. intros _. discriminate. }
  destruct Hfirst as (Hdir & Hge & Heq).
  destruct (rebuild_up_to_date env2 (snd first) H2) as (Ha & Hb & Hc).
  { rewrite (load_documents_same_dir _ _ _ Hdir). fold docs.
    rewrite Hsplit. exact Hsome. }
  { rewrite (load_documents_same_dir _ _ _ Hdir). fold docs.
    rewrite Hsplit. exact Hge. }
  unfold Index.collection_count. subst second. auto.
Qed.

Section RequestFrame.
Import Orchestrator.

Context `{OS : Machine} {B : Type} (f : World -> B) (Hf : request_frame f).
Variable env : Env.

Let Ht := frame_threads f Hf.
Let Hh := frame_health_log f Hf.
Let Hl := frame_llm_calls f Hf.
Let Hd := frame_data_dir f Hf.

Lemma keeps_write name change : keeps f (write name change).
Proof.
  intros w. unfold write. destruct (data_dir w); simpl; auto.
  destruct (open_for_writing name w); simpl; auto.
Qed.

Lemma keeps_start_thread t : keeps f (start_thread t).
Proof. unfold start_thread. frame. Qed.

Lemma keeps_log_health message : keeps f (Telemetry._log_health env message).
Proof. unfold Telemetry._log_health. frame. Qed.

Lemma keeps_last_content state : keeps f (last_content state).
Proof. unfold last_content. frame. Qed.

Lemma keeps_response_node state : keeps f (Governor.response_node env state).
Proof.
  unfold Governor.response_node, Governor.invoke, Telemetry._log_health, start_thread.
  frame.
Qed.

Lemma keeps_knowledge_inject_node state : keeps f (knowledge_inject_node env state).
Proof.
  unfold knowledge_inject_node, start_thread.
  apply keeps_bind; [apply keeps_last_content|intros msg].
  apply keeps_bind; [apply keeps_write|intros _]. frame.
Qed.

Lemma keeps_self_learn_node state : keeps f (self_learn_node env state).
Proof.
  unfold self_learn_node, start_thread.
  apply keeps_bind; [apply keeps_last_content|intros msg].
  apply keeps_bind; [apply keeps_write|intros _]. frame.
Qed.

Lemma keeps_web_search_node state : keeps f (web_search_node env state).
Proof. unfold web_search_node, Telemetry._log_health. frame. Qed.

Lemma keeps_retrieve_node state : keeps f (retrieve_node env state).
Proof.
  unfold retrieve_node.
  apply keeps_bind; [apply keeps_last_content|intros q]. frame.
Qed.

Lemma keeps_action_node state : keeps f (action_node env state).
Proof.
  unfold action_node.
  apply keeps_bind; [|intros ?; frame].
  apply keeps_try; [|intros ?; frame].
  apply keeps_bind; [frame|intros pe].
  apply keeps_bind; [apply keeps_last_content|intros msg].
  apply keeps_bind; [frame|intros r].
  apply keeps_bind; [|intros ?; frame].
  destruct r as [r|]; [|frame].
  destruct (_ && _); [|frame].
  destruct (vision_module env); frame.
Qed.

Lemma keeps_step node state :
  (forall st, keeps f (node st)) -> keeps f (step node state).
Proof. intros H. unfold step. apply keeps_bind; [apply H|intros u; frame]. Qed.

Lemma keeps_invoke prior uid text : keeps f (invoke env prior uid text).
Proof.
  unfold invoke.
  apply keeps_bind; [apply keeps_step, keeps_retrieve_node|intros st].
  apply keeps_bind; [frame|intros label].
  destruct (Router.edges !! label) as [target|]; [|frame].
  repeat match goal with
         | |- keeps _ (if ?b then _ else _) => destruct b
         end;
    first [ apply keeps_step
          | apply keeps_bind; [apply keeps_step|intros ?; apply keeps_step] ];
    intros ?;
    first [ apply keeps_knowledge_inject_node | apply keeps_self_learn_node
          | apply keeps_action_node | apply keeps_web_search_node
          | apply keeps_response_node ].
Qed.

End RequestFrame.


Lemma usage_log_request_frame : request_frame usage_log.
Proof. split; reflexivity. Qed.

Lemma keeps_ask_jarvis {B} (f : World -> B) env prior uid text :
  request_frame f ->
  (forall v w, f (set_usage_log v w) = f w) ->
  keeps f (Orchestrator.ask_jarvis env prior uid text).
Proof.
  intros Hf Hu. pose proof (frame_health_log f Hf) as Hh.
  unfold Orchestrator.ask_jarvis, Telemetry._log_usage, Telemetry._log_health.
  apply keeps_bind; [frame|intros hint].
  apply keeps_try; [|intros e; frame].
  apply keeps_bind; [now apply keeps_invoke|intros st]. frame.
Qed.

(** ** Rebuilding under the guard *)





(** ** The shortcut hint *)

Section ShortcutFacts.
Import Telemetry Orchestrator.

Lemma entries_snoc (ls : list line) (e : gmap string jval) :
  entries (ls ++ [Object e]) =
  match entries ls with
  | Returned es => Returned (es ++ [e])
  | Raised x => Raised x
  end.
Proof.
  induction ls as [|l ls IH]; [reflexivity|].
  destruct l; simpl; rewrite ?IH; try reflexivity.
  destruct (entries ls); reflexivity.
Qed.

Lemma count_snoc (es : list (gmap string jval)) (e : gmap string jval) (q q' : string) :
  query_lower e = Returned q' ->
  count (es ++ [e]) q =
  match count es q with
  | Returned n => Returned (if String.eqb q' (Py.lower q) then S n else n)
  | Raised x => Raised x
  end.
Proof.
  intros He. induction es as [|a es IH]; simpl.
  - rewrite He. reflexivity.
  - destruct (query_lower a); [|reflexivity]. rewrite IH.
    destruct (count es q); [|reflexivity].
    destruct (String.eqb q' _), (String.eqb a0 _); reflexivity.
Qed.



Lemma usage_entry_query env uid text tag :
  query_lower (usage_entry env uid text tag) = Returned (Py.lower text).
Proof.
  unfold query_lower, usage_entry.
  rewrite lookup_insert_ne by discriminate.
  rewrite lookup_insert_ne by discriminate.
  rewrite lookup_insert_eq. reflexivity.
Qed.

(** The hint is decided by the occurrence count alone. *)
Lemma check_shortcut_occurrences (q : string) (w : World) :
  _check_shortcut q w =
  match occurrences q w with
  | Returned n => if (3 <=? n)%nat then SHORTCUT_HINT else ""
  | Raised _ => ""
  end.
Proof.
  unfold _check_shortcut, occurrences.
  destruct (usage_log w); [|reflexivity].
  destruct (entries l); reflexivity.
Qed.

(** Logging one use of [text] raises by one the count of every query equal
    to it up to case, and leaves a log that cannot be read as it is. *)
Lemma occurrences_logged env uid text tag (q : string) (w : World) :
  occurrences q (snd (_log_usage env uid text tag w)) =
  match occurrences q w with
  | Returned n => Returned (if String.eqb (Py.lower text) (Py.lower q) then S n else n)
  | Raised x => Raised x
  end.
Proof.
  unfold occurrences, _log_usage. run.
  rewrite entries_snoc.
  destruct (usage_log w) as [ls|]; simpl.
  - destruct (entries ls) as [es|]; [|reflexivity].
    now rewrite (count_snoc _ _ _ _ (usage_entry_query env uid text tag)).
  - now rewrite usage_entry_query.
Qed.





End ShortcutFacts.

(** ** Knowledge injection, end to end *)

Section InjectFacts.
Import Orchestrator.

Variable env : Env.
Variable prior : GraphState.
Variable uid : string.
Variable w : World.
Variable files : list (string * outcome string).

Hypothesis Hdir : data_dir w = Some files.
Hypothesis Hretrieve :
  self_vector_store w = None
  \/ exists docs, similarity_search env (chroma_db w) NOTE = Returned docs.





End InjectFacts.

(** ** The supervisor *)

Section WatchdogFacts.
Import Watchdog.

Variable s : Sup.
Variable p : Poll.















End WatchdogFacts.

End Claims.

(** ** The properties at sample inputs *)

Lemma Q_25_le_40 : (25 <= 40)%Q.
Proof. unfold Qle. simpl. lia. Qed.


Lemma sound_logs_writable : logs_writable (OS := sound).
Proof. intros f w. reflexivity. Qed.

Lemma sound_threads_start : threads_start (OS := sound).
Proof. intros t w. reflexivity. Qed.

Lemma C5_inject_precedence_witness :
  Router.router c5_state = Returned "inject"
  /\ Py.contains "remember" (Py.strip (Py.lower (content c5_message))) = true
  /\ Py.startswith (content c5_message) NBSP = true.
Proof.
  split; [|split; reflexivity].
  destruct (C5_inject_precedence c5_state c5_message eq_refl) as [Hinject _].
  apply Hinject. reflexivity.
Defined.

Lemma C9_web_or_respond_witness :
  Router.router (c9_state (Some [])) = Returned "web"
  /\ Router.router (c9_state (Some [mkDocument "permits are filed on Mondays" "data/permits.md"]))
     = Returned "answer".
Proof.
  split.
  - apply (C9_web_or_respond (c9_state (Some [])) (HumanMessage "tell me about permits")
             eq_refl eq_refl eq_refl eq_refl).
    reflexivity.
  - apply (C9_web_or_respond
             (c9_state (Some [mkDocument "permits are filed on Mondays" "data/permits.md"]))
             (HumanMessage "tell me about permits") eq_refl eq_refl eq_refl eq_refl).
    discriminate.
Defined.






(** A store that holds more chunks than the corpus yields still does after a
    rebuild that returns normally: the two counts are not equal. *)
Lemma C4_stored_count_may_exceed :
  fst (Index._build_index Samples.calm Samples.stale) = Returned tt
  /\ Index.collection_count (snd (Index._build_index Samples.calm Samples.stale)) = 3%nat
  /\ length (self_chunks (snd (Index._build_index Samples.calm Samples.stale))) = 1%nat
  /\ Index.collection_count (snd (Index._build_index Samples.calm Samples.stale))
     <> length (self_chunks (snd (Index._build_index Samples.calm Samples.stale))).
Proof. repeat split; try reflexivity. vm_compute. discriminate. Qed.

Lemma C4_rebuild_idempotent_witness :
  Index.inserted (snd (Index._build_index Samples.calm Samples.stocked))
                 (snd (Index._build_index Samples.calm
                         (snd (Index._build_index Samples.calm Samples.stocked)))) = []
  /\ Index.collection_count (snd (Index._build_index Samples.calm Samples.stocked)) = 2%nat.
Proof.
  destruct (C4_rebuild_idempotent Samples.calm Samples.calm Samples.stocked
              Q_25_le_40 Q_25_le_40 eq_refl eq_refl) as (_ & Hins & _ & _ & Heq).
  split; [exact Hins|]. rewrite Heq; [reflexivity|vm_compute; lia].
Defined.

(** Where the health log cannot be opened the exception leaves
    [response_node]: above the threshold before any backend is invoked, and
    below it from the handler of the primary's failure, so that the fallback
    is never tried. *)
Lemma C6_log_failure_escapes :
  Governor.response_node (OS := Cases.read_only) Samples.pressed Samples.chat Samples.bare
  = (Raised "PermissionError: [Errno 13] Permission denied", Samples.bare)
  /\ fst (Governor.response_node (OS := Cases.read_only) Samples.offline Samples.chat
            Samples.bare)
     = Raised "PermissionError: [Errno 13] Permission denied"
  /\ llm_calls (snd (Governor.response_node (OS := Cases.read_only) Samples.offline
                       Samples.chat Samples.bare))
     = [primary].
Proof. repeat split; vm_compute; reflexivity. Qed.

Lemma C6_generate_never_raises_witness :
  fst (Governor.response_node Samples.offline Samples.chat Samples.bare)
  = Returned (answered Governor.APOLOGY_OFFLINE)
  /\ health_log (snd (Governor.response_node Samples.offline Samples.chat Samples.bare))
     = [("2024-01-05 09:30:00", PrimaryFailed "ConnectionError");
        ("2024-01-05 09:30:00", FallbackAlsoFailed "ConnectionError")].
Proof.
  destruct (C6_generate_never_raises (OS := sound) Samples.offline Samples.chat Samples.bare)
    as [H _].
  destruct (H sound_logs_writable sound_threads_start) as [_ Hfail].
  destruct (Hfail "ConnectionError" Q_25_le_40 eq_refl) as (_ & _ & Hboth).
  exact (Hboth "ConnectionError" eq_refl).
Defined.








(** * Further properties *)

Section Further.
Context `{U : Unicode}.

(** ** The router's lower branches *)

Lemma startswith_contains (s t : string) :
  Py.startswith s t = true -> Py.contains t s = true.
Proof.
  unfold Py.startswith. intros H. destruct s; cbn [Py.contains]; rewrite H; reflexivity.
Qed.

Lemma any_trigger_contains (msg : string) (ts : list string) :
  Py.any (fun t => Py.startswith msg t || Py.contains t msg) ts
  = Py.any (fun t => Py.contains t msg) ts.
Proof.
  unfold Py.any. induction ts as [|t ts IH]; [reflexivity|]. simpl. rewrite IH.
  destruct (Py.startswith msg t) eqn:E; [|reflexivity].
  now rewrite (startswith_contains _ _ E).
Qed.

Section RouterBranches.
Import Router.

Variable state : GraphState.
Variable m : BaseMessage.
Hypothesis Hlast : last (messages state) = Some m.

Let msg : string := Py.strip (Py.lower (content m)).

Hypothesis Hinject : Py.any (fun t => Py.startswith msg t) inject_triggers = false.

(** X1. A message that does not begin with an inject trigger and contains
    "remember" or "save this" anywhere (after lowercasing) is routed to
    "learn", the quick-learn node, whether or not it also holds an action
    trigger and whatever retrieval returned. *)
Theorem X1_learn_precedence :
  Py.contains "remember" msg || Py.contains "save this" msg = true ->
  router state = Returned "learn" /\ edges !! "learn" = Some "self_learn".
Proof.
  intros Hl. rewrite (router_reads_last state m Hlast). fold msg.
  unfold route. rewrite Hinject. fold msg in Hl. rewrite Hl. split; reflexivity.
Qed.

(** X2. For a message with no inject and no learn cue, the router answers
    "act" exactly when one of the five action triggers occurs anywhere in the
    lowercased message: the [startswith] test adds nothing to the substring
    test, so "play " and "open " count in the middle of a sentence too. *)
Theorem X2_act_anywhere :
  Py.contains "remember" msg || Py.contains "save this" msg = false ->
  (router state = Returned "act"
   <-> Py.any (fun t => Py.contains t msg) action_triggers = true)
  /\ edges !! "act" = Some "action".
Proof.
  intros Hl. split; [|reflexivity].
  rewrite (router_reads_last state m Hlast). fold msg.
  unfold route. rewrite Hinject. fold msg in Hl. rewrite Hl.
  rewrite any_trigger_contains.
  destruct (Py.any _ action_triggers).
  - split; reflexivity.
  - split; [|discriminate].
    destruct (documents state) as [[|d ds]|]; intros H; discriminate H.
Qed.

End RouterBranches.

(** ** Reading the usage log *)

Section LogReading.
Import Telemetry.

Lemma entries_unreadable (ls : list line) :
  Unreadable ∈ ls -> exists x, entries ls = Raised x.
Proof.
  induction ls as [|l ls IH]; intros H; [inversion H|].
  apply elem_of_cons in H as [<-|H]; [simpl; eauto|].
  destruct (IH H) as [x Hx]. destruct l; simpl; rewrite ?Hx; eauto.
Qed.

Lemma entries_members (ls : list line) (es : list (gmap string jval)) (e : gmap string jval) :
  entries ls = Returned es -> Object e ∈ ls -> e ∈ es.
Proof.
  revert es. induction ls as [|l ls IH]; intros es Hes H; [inversion H|].
  apply elem_of_cons in H as [<-|H]; simpl in Hes.
  - destruct (entries ls); [|discriminate]. injection Hes as <-. left.
  - destruct l; try discriminate; auto.
    destruct (entries ls) as [es'|]; [|discriminate]. injection Hes as <-.
    right. now apply IH.
Qed.

Lemma count_bad_query (es : list (gmap string jval)) (e : gmap string jval) (q : string) :
  e ∈ es -> e !! "query" = Some JOther -> exists x, count es q = Raised x.
Proof.
  intros H Hq. induction es as [|a es IH]; [inversion H|].
  apply elem_of_cons in H as [<-|H]; simpl.
  - unfold query_lower. rewrite Hq. simpl. eauto.
  - destruct (IH H) as [x Hx]. rewrite Hx. destruct (query_lower a); eauto.
Qed.

(** X3. One bad line silences the suggestion: if the usage log holds a line
    that is not a JSON object, or an object whose "query" is not a string,
    [_check_shortcut] returns the empty string for every query, however
    often it was asked. *)
Theorem X3_bad_line_silences_hint (w : World) (ls : list line) (query : string) :
  usage_log w = Some ls ->
  (Unreadable ∈ ls \/ exists e, Object e ∈ ls /\ e !! "query" = Some JOther) ->
  _check_shortcut query w = "".
Proof.
  intros Hlog Hbad. unfold _check_shortcut. rewrite Hlog.
  destruct Hbad as [Hu|(e & He & Hq)].
  - destruct (entries_unreadable ls Hu) as [x ->]. reflexivity.
  - destruct (entries ls) as [es|] eqn:Ees; [|reflexivity].
    destruct (count_bad_query es e query (entries_members ls es e Ees He) Hq) as [x ->].
    reflexivity.
Qed.

(** X4. Every logged use counts, whoever made it and however it ended: after
    [_log_usage] of a text equal to the query up to letter case, under any
    user id and any outcome tag, the count the suggestion is decided on is
    one higher, so the suggestion is returned exactly when the earlier count
    was at least 2. *)
Theorem X4_every_use_counts (env : Env) (uid text tag query : string) (w : World) (n : nat) :
  Py.lower text = Py.lower query ->
  occurrences query w = Returned n ->
  _check_shortcut query (snd (_log_usage env uid text tag w))
  = if (2 <=? n)%nat then SHORTCUT_HINT else "".
Proof.
  intros Hq Hn. rewrite check_shortcut_occurrences.
  rewrite (occurrences_logged env uid text tag query w), Hn, Hq, String.eqb_refl.
  reflexivity.
Qed.

End LogReading.

(** ** Re-indexing *)

Lemma reindex_returns (env : Env) (w : World) : fst (Index.reindex env w) = Returned tt.
Proof.
  unfold Index.reindex, try_except.
  destruct (Index._build_index env w) as [[[]|e] w1]; reflexivity.
Qed.

Lemma build_index_grows (env : Env) (w : World) :
  exists added, chroma_db (snd (Index._build_index env w)) = chroma_db w ++ added.
Proof.
  destruct (Qlt_le_dec 40 (virtual_memory_percent env)) as [Hg|Hg].
  - rewrite (guarded_rebuild env w Hg). exists []. simpl. now rewrite app_nil_r.
  - rewrite (open_rebuild env w Hg).
    destruct (Index.load_documents _ w); [exists []; simpl; now rewrite app_nil_r|].
    destruct (split_documents env _); [exists []; simpl; now rewrite app_nil_r|].
    destruct (_ <? _)%nat; [destruct (embed env _)|]; simpl; eauto;
      exists []; now rewrite app_nil_r.
Qed.

Lemma reindex_world (env : Env) (w : World) :
  snd (Index.reindex env w) = snd (Index._build_index env w)
  \/ exists e, fst (Index._build_index env w) = Raised e
               /\ snd (Index.reindex env w)
                  = set_health_log (health_log (snd (Index._build_index env w))
                                    ++ [(now_long env, ReindexFailed e)])
                                   (snd (Index._build_index env w)).
Proof.
  unfold Index.reindex, try_except.
  destruct (Index._build_index env w) as [[[]|e] w1]; [left; reflexivity|].
  right. exists e. split; reflexivity.
Qed.


Lemma chroma_request_frame : request_frame chroma_db.
Proof. split; reflexivity. Qed.

(** X5. [reindex] lets nothing escape but what the append to the health log
    in its handler raises; where the log can be appended to it never
    raises.  When the embedder then fails during a rebuild at or below the
    memory threshold, the failure is written to the health log and the
    persisted collection is left as it was, but the in-memory document and
    chunk lists are already the new ones: the status query then reports the
    new chunk count beside the old vector count. *)
Theorem X5_failed_reindex_is_logged `{OS : Machine} (env : Env) (w : World) (e : string) :
  let docs := Index.load_documents Index.DATA_DIR w in
  let chunks := split_documents env docs in
  let existing := Index.collection_count w in
  let w' := snd (Index.reindex env w) in
  (forall x, fst (Index.reindex env w) = Raised x ->
     exists e0 w0, fst (Index._build_index env w) = Raised e0
                   /\ append_line HEALTH_LOG w0 = Raised x)
  /\ (logs_writable ->
      fst (Index.reindex env w) = Returned tt
      /\ ((virtual_memory_percent env <= 40)%Q ->
          docs <> [] ->
          (existing < length chunks)%nat ->
          embed env (drop existing chunks) = Raised e ->
          health_log w' = health_log w ++ [(now_long env, ReindexFailed e)]
          /\ chroma_db w' = chroma_db w
          /\ self_documents w' = docs
          /\ self_chunks w' = chunks
          /\ Status.chunks (Status.status w') = length chunks
          /\ Status.vectors (Status.status w') = existing)).
Proof.
  intros docs chunks existing w'. split; [|intros Hlog; split].
  - intros x. unfold Index.reindex, try_except.
    destruct (Index._build_index env w) as [[[]|e0] w1]; [discriminate|].
    unfold Telemetry._log_health, bind, ask, modify.
    destruct (append_line HEALTH_LOG w1) eqn:Ea; [discriminate|].
    intros [= <-]. eauto.
  - unfold Index.reindex, try_except.
    destruct (Index._build_index env w) as [[[]|e0] w1]; [reflexivity|].
    unfold Telemetry._log_health, bind, ask, modify. now rewrite Hlog.
  - intros Hg Hdocs Hlt He. subst w'.
    unfold Index.reindex, try_except. rewrite (open_rebuild env w Hg). fold docs.
    destruct docs as [|d ds] eqn:Ed; [congruence|].
    fold chunks. fold existing.
    destruct chunks as [|c cs] eqn:Ec; [simpl in Hlt; lia|].
    apply Nat.ltb_lt in Hlt. rewrite Hlt, He.
    unfold Telemetry._log_health, bind, ask, modify. rewrite Hlog.
    repeat split.
Qed.

(** X6. A rebuild at or below the threshold that finds nothing to load (no
    data directory, or no readable .txt or .md file in it) drops the vector
    store handle without touching the persisted collection: the status query
    reports 0 vectors whatever the collection holds, and retrieval returns no
    documents without consulting the similarity search. *)
Theorem X6_empty_corpus_drops_store (env env' : Env) (state : GraphState) (m : BaseMessage)
    (w : World) :
  let w' := snd (Index._build_index env w) in
  (virtual_memory_percent env <= 40)%Q ->
  Index.load_documents Index.DATA_DIR w = [] ->
  last (messages state) = Some m ->
  fst (Index._build_index env w) = Returned tt
  /\ self_vector_store w' = None
  /\ chroma_db w' = chroma_db w
  /\ Status.vectors (Status.status w') = 0%nat
  /\ Orchestrator.retrieve_node env' state w'
     = (Returned (mkUpdate (Some []) (Some (content m)) None []), w').
Proof.
  intros w' Hg Hdocs Hlast. subst w'.
  rewrite (open_rebuild env w Hg), Hdocs. simpl.
  repeat (split; [reflexivity|]).
  unfold Orchestrator.retrieve_node, last_content. rewrite Hlast. reflexivity.
Qed.

(** X7. The persisted collection only grows: over any history of requests
    and re-indexes, guarded or not, failing or not, what the collection held
    at the start is still there, in the same order, at the front. *)
Theorem X7_collection_only_grows (acts : list Runs.Activity) (w : World) :
  exists added, chroma_db (Runs.run acts w) = chroma_db w ++ added.
Proof.
  unfold Runs.run. revert w.
  induction acts as [|a acts IH]; intros w; [exists []; simpl; now rewrite app_nil_r|].
  simpl. destruct (IH (Runs.perform w a)) as [added Hadded]. rewrite Hadded.
  assert (Hstep : exists k, chroma_db (Runs.perform w a) = chroma_db w ++ k).
  { destruct a as [env|r]; simpl.
    - destruct (build_index_grows env w) as [k Hk].
      destruct (reindex_world env w) as [->|(e & _ & ->)]; exists k; exact Hk.
    - exists []. rewrite app_nil_r.
      apply (keeps_ask_jarvis chroma_db); [apply chroma_request_frame|reflexivity]. }
  destruct Hstep as [k ->]. exists (k ++ added). now rewrite app_assoc.
Qed.



(** ** The response node's other paths *)



(** ** The request endpoint *)

(** X11. [ask_jarvis] lets nothing escape but what an append to the health
    log or to the usage log raises in its handler.  Where the logs can be
    appended to it never raises: it logs the request once, with outcome "ok"
    when the graph run returned and "error: <exception>" when it raised; in
    the second case the reply is the crash reply naming the exception and
    the health log gains the crash as its last line. *)
Theorem X11_ask_never_raises `{OS : Machine} (env : Env) (prior : GraphState)
    (uid text : string) (w : World) :
  let run := Orchestrator.invoke env prior uid text w in
  let served := Orchestrator.ask_jarvis env prior uid text w in
  (forall x, fst served = Raised x -> exists f w0, append_line f w0 = Raised x)
  /\ (logs_writable ->
      exists reply tag,
        fst served = Returned reply
        /\ usage_log (snd served)
           = Some (default [] (usage_log w)
                   ++ [Object (Telemetry.usage_entry env uid text tag)])
        /\ match fst run with
           | Returned _ => tag = "ok" /\ health_log (snd served) = health_log (snd run)
           | Raised e =>
               tag = "error: " +:+ e
               /\ reply = Orchestrator.CRASH_REPLY e
               /\ health_log (snd served)
                  = health_log (snd run) ++ [(now_long env, EndpointCrash e)]
           end).
Proof.
  intros run served. subst run served.
  pose proof (keeps_invoke usage_log usage_log_request_frame env prior uid text w) as Hk.
  unfold Orchestrator.ask_jarvis, Telemetry._log_usage, Telemetry._log_health.
  unfold bind, ret, modify, get, call, raise, try_except, ask.
  split.
  - intros x.
    destruct (Orchestrator.invoke env prior uid text w) as [[st|e] w1].
    + destruct (append_line USAGE_LOG w1) as [[]|e1] eqn:E1; [discriminate|].
      destruct (append_line HEALTH_LOG w1) as [[]|e2] eqn:E2.
      * match goal with
        | |- context [append_line USAGE_LOG ?w2] =>
            destruct (append_line USAGE_LOG w2) as [[]|e3] eqn:E3
        end; [discriminate|]. intros [= <-]. eauto.
      * intros [= <-]. eauto.
    + destruct (append_line HEALTH_LOG w1) as [[]|e2] eqn:E2.
      * match goal with
        | |- context [append_line USAGE_LOG ?w2] =>
            destruct (append_line USAGE_LOG w2) as [[]|e3] eqn:E3
        end; [discriminate|]. intros [= <-]. eauto.
      * intros [= <-]. eauto.
  - intros Hlog.
    destruct (Orchestrator.invoke env prior uid text w) as [[st|e] w1]; simpl in *;
      rewrite ?Hlog; simpl; rewrite Hk; eexists _, _; repeat split.
Qed.



(** ** What the graph returns *)


(** Unfolding the monad without touching the strings. *)
Ltac light :=
  cbv beta iota zeta delta
      [bind ret raise modify get call ask try_except last_content start_thread
       Orchestrator.write open_for_writing start sound].





(** [action_node] by the outcome of everything it consults. *)
Lemma action_node_returns env st (w : World) :
  exists a, Orchestrator.action_node env st w = (Returned (answered a), w) /\ a <> "".
Proof.
  assert (Hdefault : forall r : string,
             (if String.eqb r "" then "Command executed, Sir." else r) <> "").
  { intros r. destruct (String.eqb r "") eqn:E; [discriminate|].
    now apply String.eqb_neq in E. }
  unfold Orchestrator.action_node, last_content. run.
  destruct (action_engine env) as [pe|e]; [|eexists; split; [reflexivity|discriminate]].
  destruct (last (messages st)) as [m|]; simpl;
    [|eexists; split; [reflexivity|discriminate]].
  destruct (pe (content m)) as [[r|]|e]; simpl;
    [| eexists; split; [reflexivity|discriminate]
     | eexists; split; [reflexivity|discriminate]].
  destruct (negb (String.eqb r "") && Py.startswith r Orchestrator.AUDIT_SENTINEL); simpl;
    [|eexists; split; [reflexivity|apply Hdefault]].
  destruct (PyText.split_once_1 r ":") as [filepath|e]; simpl;
    [|eexists; split; [reflexivity|discriminate]].
  destruct (vision_module env) as [analyze|]; simpl;
    [|eexists; split; [reflexivity|discriminate]].
  destruct (analyze _) as [a|e]; simpl;
    [eexists; split; [reflexivity|apply Hdefault]
    |eexists; split; [reflexivity|discriminate]].
Qed.




(** X14. [action_node] never raises and changes nothing of the world: every
    failure (the engine missing, the engine raising, the vision call raising,
    an empty conversation) becomes an answer, and the answer is never empty;
    in particular, when the engine returns nothing or the empty string the
    answer is "Command executed, Sir.". *)
Theorem X14_action_node_always_answers (env : Env) (state : GraphState) (w : World) :
  (exists a, Orchestrator.action_node env state w = (Returned (answered a), w) /\ a <> "")
  /\ (forall parse m r,
        action_engine env = Returned parse ->
        last (messages state) = Some m ->
        parse (content m) = Returned r ->
        r = None \/ r = Some "" ->
        fst (Orchestrator.action_node env state w)
        = Returned (answered "Command executed, Sir.")).
Proof.
  split; [apply action_node_returns|].
  intros parse m r Hpe Hlast Hr Hempty.
  unfold Orchestrator.action_node, last_content. run.
  rewrite Hpe, Hlast. simpl. rewrite Hr. simpl.
  destruct Hempty as [->| ->]; reflexivity.
Qed.

(** X15. [web_search_node] always hands on exactly one document: the search
    results joined by blank lines, or, when the search raises, the text
    "Web search unavailable: <exception>", with the failure written to the
    health log.  The one exception that can escape it is the one the append
    to the health log raises in that handler; the world is then as it
    was. *)
Theorem X15_web_search_degrades `{OS : Machine} (env : Env) (state : GraphState)
    (w : World) :
  let one text := mkUpdate (Some [mkDocument text ""]) None None [] in
  match ddgs_text env (question state) with
  | Returned results =>
      Orchestrator.web_search_node env state w
      = (Returned (one (Py.join (nl +:+ nl) results)), w)
  | Raised e =>
      match append_line HEALTH_LOG w with
      | Returned _ =>
          Orchestrator.web_search_node env state w
          = (Returned (one ("Web search unavailable: " +:+ e)),
             set_health_log
               (health_log w ++ [(now_long env, WebSearchFailed (question state) e)]) w)
      | Raised x => Orchestrator.web_search_node env state w = (Raised x, w)
      end
  end.
Proof.
  unfold Orchestrator.web_search_node, Telemetry._log_health.
  unfold bind, ret, modify, get, call, raise, try_except, ask.
  destruct (ddgs_text env (question state)); [reflexivity|].
  destruct (append_line HEALTH_LOG w) as [[]|x]; reflexivity.
Qed.

(** ** Characters *)

Section Characters.

Lemma prefix_char (a c : ascii) (s : string) :
  String.prefix (String a EmptyString) (String c s) = Ascii.eqb a c.
Proof.
  simpl. destruct (ascii_dec a c) as [->|Hne].
  - rewrite Ascii.eqb_refl. destruct s; reflexivity.
  - symmetry. now apply Ascii.eqb_neq.
Qed.

Lemma replace_char_step (a b c : ascii) (s : string) :
  Py.replace_from (String a EmptyString) (String b EmptyString) 0 (String c s)
  = String (if Ascii.eqb a c then b else c)
           (Py.replace_from (String a EmptyString) (String b EmptyString) 0 s).
Proof.
  cbn [Py.replace_from]. rewrite prefix_char.
  destruct (Ascii.eqb a c); reflexivity.
Qed.

(** Replacing one ASCII character by another leaves the number of
    characters as it is. *)
Lemma replace_char_len (a b : ascii) (s : string) :
  Py.continuation a = false -> Py.continuation b = false ->
  Py.len (Py.replace_from (String a EmptyString) (String b EmptyString) 0 s) = Py.len s.
Proof.
  intros Ha Hb. induction s as [|c s IH]; [reflexivity|].
  rewrite replace_char_step. cbn [Py.len]. rewrite IH.
  destruct (Ascii.eqb a c) eqn:E; [|reflexivity].
  apply Ascii.eqb_eq in E. subst c. now rewrite Ha, Hb.
Qed.

Lemma contains_char (x c : ascii) (s : string) :
  Py.contains (String x EmptyString) (String c s)
  = Ascii.eqb x c || Py.contains (String x EmptyString) s.
Proof. cbn [Py.contains]. now rewrite prefix_char. Qed.

Lemma replace_char_clears (x a b : ascii) (s : string) :
  x <> b ->
  x = a \/ Py.contains (String x EmptyString) s = false ->
  Py.contains (String x EmptyString)
              (Py.replace_from (String a EmptyString) (String b EmptyString) 0 s) = false.
Proof.
  intros Hxb. induction s as [|c s IH]; intros H; [reflexivity|].
  rewrite replace_char_step, contains_char.
  assert (Htail : x = a \/ Py.contains (String x EmptyString) s = false).
  { destruct H as [H|H]; [now left|right].
    rewrite contains_char in H. now apply orb_false_iff in H. }
  rewrite (IH Htail), orb_false_r.
  destruct (Ascii.eqb a c) eqn:Eac.
  - now apply Ascii.eqb_neq.
  - destruct H as [->|H]; [exact Eac|].
    rewrite contains_char in H. now apply orb_false_iff in H.
Qed.

(** A slice of [n] characters has at most [n] characters, however many
    bytes they take. *)
Lemma upto_len (n : nat) (s : string) : (Py.len (Py.upto n s) <= n)%nat.
Proof.
  revert n. induction s as [|c s IH]; intros n; [simpl; lia|].
  cbn [Py.upto]. destruct (Py.continuation c) eqn:Ec.
  - cbn [Py.len]. rewrite Ec. apply IH.
  - destruct n as [|n]; [simpl; lia|].
    cbn [Py.len]. rewrite Ec. specialize (IH n). lia.
Qed.

(** Text without a carriage return is read back as it was written. *)
Lemma universal_newlines_plain (s : string) :
  Py.contains CR s = false -> Py.universal_newlines s = s.
Proof.
  unfold CR. induction s as [|c s IH]; [reflexivity|].
  rewrite contains_char. intros H. apply orb_false_iff in H as [Hc Hs].
  cbn [Py.universal_newlines]. rewrite Ascii.eqb_sym, Hc. now rewrite IH.
Qed.

End Characters.

(** ** The data directory *)

Section Directory.
Import Orchestrator Histories.

Lemma file_text_put_same name text files :
  file_text name (put_file name text files) = Some (Returned text).
Proof.
  induction files as [|f files IH]; simpl; [now rewrite String.eqb_refl|].
  destruct (String.eqb (fst f) name) eqn:E; simpl.
  - now rewrite String.eqb_refl.
  - now rewrite E.
Qed.

Lemma file_text_put_other name name' text files :
  name' <> name -> file_text name' (put_file name text files) = file_text name' files.
Proof.
  intros Hne. apply String.eqb_neq in Hne. rewrite String.eqb_sym in Hne.
  induction files as [|f files IH]; simpl; [now rewrite Hne|].
  destruct (String.eqb (fst f) name) eqn:E; simpl.
  - apply String.eqb_eq in E. rewrite E, Hne. reflexivity.
  - now rewrite IH.
Qed.

Lemma file_text_append_same name text files :
  file_text name (append_file name text files)
  = Some (match file_text name files with
          | Some (Returned old) => Returned (old +:+ text)
          | Some (Raised e) => Raised e
          | None => Returned text
          end).
Proof.
  induction files as [|f files IH]; simpl; [now rewrite String.eqb_refl|].
  destruct (String.eqb (fst f) name) eqn:E; simpl.
  - now rewrite String.eqb_refl.
  - now rewrite E.
Qed.

Lemma file_text_append_other name name' text files :
  name' <> name -> file_text name' (append_file name text files) = file_text name' files.
Proof.
  intros Hne. apply String.eqb_neq in Hne. rewrite String.eqb_sym in Hne.
  induction files as [|f files IH]; simpl; [now rewrite Hne|].
  destruct (String.eqb (fst f) name) eqn:E; simpl.
  - apply String.eqb_eq in E. rewrite E, Hne. reflexivity.
  - now rewrite IH.
Qed.

Lemma put_file_holds name text files : (name, Returned text) ∈ put_file name text files.
Proof.
  induction files as [|f files IH]; simpl; [left|].
  destruct (String.eqb (fst f) name); [left|right; exact IH].
Qed.

Lemma endswith_refl (t : string) : Py.endswith t t = true.
Proof. destruct t; simpl; [reflexivity|]. now rewrite Ascii.eqb_refl, String.eqb_refl. Qed.

Lemma endswith_append (a b t : string) :
  Py.endswith b t = true -> Py.endswith (a +:+ b) t = true.
Proof.
  intros H. induction a as [|c a IH]; [exact H|].
  change (Py.endswith (String c (a +:+ b)) t = true).
  unfold Py.endswith; fold Py.endswith. rewrite IH. apply orb_true_r.
Qed.

Context `{OS : Machine}.

(** What the loader makes of a file that the directory holds. *)
Lemma loaded_if_held folder name text files :
  Py.endswith name ".md" = true ->
  (name, Returned text) ∈ files ->
  mkDocument (Py.universal_newlines text) (Index.path_join folder name)
  ∈ flat_map (Index.load_file folder) files.
Proof.
  intros Hmd Hin. apply list_elem_of_In, in_flat_map.
  exists (name, Returned text). split; [now apply list_elem_of_In|].
  unfold Index.load_file. simpl. rewrite Hmd, orb_true_r. left. reflexivity.
Qed.

Lemma open_rebuild_documents env (w : World) :
  (virtual_memory_percent env <= 40)%Q ->
  self_documents (snd (Index._build_index env w)) = Index.load_documents Index.DATA_DIR w.
Proof.
  intros Hg. rewrite (open_rebuild env w Hg).
  destruct (Index.load_documents _ w) eqn:E; [reflexivity|].
  destruct (split_documents env _); [reflexivity|].
  destruct (_ <? _)%nat; [destruct (embed env _)|]; reflexivity.
Qed.

(** A write into the data directory, by what the open does. *)
Lemma write_runs name change (w : World) (files : list (string * outcome string)) :
  data_dir w = Some files ->
  write name change w =
  match open_for_writing name w with
  | Returned _ => (Returned tt, set_data_dir (Some (change files)) w)
  | Raised e => (Raised e, w)
  end.
Proof. intros Hdir. unfold write. now rewrite Hdir. Qed.

Variable env : Env.
Variable state : GraphState.
Variable m : BaseMessage.
Variable w : World.
Variable files : list (string * outcome string).
Hypothesis Hlast : last (messages state) = Some m.
Hypothesis Hdir : data_dir w = Some files.

(** The two writing nodes, by what the machine does. *)
Lemma inject_node_on :
  knowledge_inject_node env state w =
  match open_for_writing (knowledge_file env (content m)) w with
  | Returned _ =>
      let w1 := set_data_dir
                  (Some (put_file (knowledge_file env (content m))
                                  (knowledge_text env (content m)) files)) w in
      match start reindex_target w1 with
      | Returned _ =>
          (Returned (answered INJECT_ACK), set_threads (threads w ++ [reindex_target]) w1)
      | Raised e => (Raised e, w1)
      end
  | Raised e => (Raised e, w)
  end.
Proof.
  unfold knowledge_inject_node, last_content. rewrite Hlast.
  unfold start_thread, bind at 1, ret at 1. cbv zeta.
  unfold bind at 1. fold (knowledge_file env (content m)).
  rewrite (write_runs _ _ w files Hdir).
  unfold knowledge_file, knowledge_text, knowledge_topic.
  destruct (open_for_writing _ w); [|reflexivity].
  unfold bind, ask, modify, ret.
  destruct (start reindex_target _); reflexivity.
Qed.

Lemma learn_node_on :
  self_learn_node env state w =
  match open_for_writing "learned_memory.md" w with
  | Returned _ =>
      let w1 := set_data_dir
                  (Some (append_file "learned_memory.md"
                                     (learned_line env (content m)) files)) w in
      match start reindex_target w1 with
      | Returned _ =>
          (Returned (answered LEARN_ACK), set_threads (threads w ++ [reindex_target]) w1)
      | Raised e => (Raised e, w1)
      end
  | Raised e => (Raised e, w)
  end.
Proof.
  unfold self_learn_node, last_content. rewrite Hlast.
  unfold start_thread, bind at 1, ret at 1. cbv zeta.
  unfold bind at 1.
  rewrite (write_runs _ _ w files Hdir).
  unfold learned_line.
  destruct (open_for_writing _ w); [|reflexivity].
  unfold bind, ask, modify, ret.
  destruct (start reindex_target _); reflexivity.
Qed.

(** X16. [self_learn_node] only ever adds to learned_memory.md.  On any
    machine, if the file cannot be opened the node raises and leaves the
    world as it was; if it can, the file then holds what it held before
    followed by one new line (or just that line if the file was not there),
    and every other file of the data directory is as it was, whether or not
    the re-index thread then starts; when it does, the node answers with its
    acknowledgement. *)
Theorem X16_learn_appends :
  let line := learned_line env (content m) in
  let after := self_learn_node env state w in
  match open_for_writing "learned_memory.md" w with
  | Raised e => after = (Raised e, w)
  | Returned _ =>
      exists files',
        data_dir (snd after) = Some files'
        /\ file_text "learned_memory.md" files'
           = Some (match file_text "learned_memory.md" files with
                   | Some (Returned old) => Returned (old +:+ line)
                   | Some (Raised e) => Raised e
                   | None => Returned line
                   end)
        /\ (forall name, name <> "learned_memory.md" ->
              file_text name files' = file_text name files)
        /\ (threads_start ->
            fst after = Returned (answered LEARN_ACK)
            /\ threads (snd after) = threads w ++ [reindex_target])
  end.
Proof.
  intros line after. subst after. rewrite learn_node_on.
  destruct (open_for_writing "learned_memory.md" w); [|reflexivity].
  eexists. cbv zeta.
  split; [destruct (start reindex_target _); reflexivity|].
  split; [apply file_text_append_same|].
  split; [intros name Hne; now apply file_text_append_other|].
  intros Hth. rewrite Hth. split; reflexivity.
Qed.

(** X17. What [knowledge_inject_node] writes is what the next rebuild loads.
    On any machine on which the knowledge file can be opened, the data
    directory then holds the node's text under the node's file name, and a
    rebuild at or below the memory threshold puts a document with that text
    as the text-mode loader reads it back, and that file as its source, into
    the pipeline's document list, whether or not the re-index thread started
    and whether or not the embedder then fails.  What is read back is the
    text itself when it holds no carriage return. *)
Theorem X17_note_is_loaded (env2 : Env) :
  let name := knowledge_file env (content m) in
  let text := knowledge_text env (content m) in
  let w1 := snd (knowledge_inject_node env state w) in
  let w2 := snd (Index._build_index env2 w1) in
  open_for_writing name w = Returned tt ->
  (virtual_memory_percent env2 <= 40)%Q ->
  (exists files1, data_dir w1 = Some files1
     /\ file_text name files1 = Some (Returned text))
  /\ mkDocument (Py.universal_newlines text) (Index.path_join Index.DATA_DIR name)
     ∈ self_documents w2
  /\ (Py.contains CR text = false -> Py.universal_newlines text = text).
Proof.
  intros name text w1 w2 Hopen Hg. subst w2 w1.
  rewrite inject_node_on. fold name. fold text. rewrite Hopen. cbv zeta.
  assert (Hw1 : data_dir
                  (snd match start reindex_target
                               (set_data_dir (Some (put_file name text files)) w) with
                       | Returned _ =>
                           (Returned (answered INJECT_ACK),
                            set_threads (threads w ++ [reindex_target])
                              (set_data_dir (Some (put_file name text files)) w))
                       | Raised e =>
                           (@Raised Update e,
                            set_data_dir (Some (put_file name text files)) w)
                       end)
                = Some (put_file name text files))
    by (destruct (start reindex_target _); reflexivity).
  split; [eexists; split; [exact Hw1|apply file_text_put_same]|].
  split; [|apply universal_newlines_plain].
  rewrite (open_rebuild_documents env2 _ Hg).
  unfold Index.load_documents. rewrite Hw1.
  apply loaded_if_held; [|apply put_file_holds].
  subst name. unfold knowledge_file. repeat apply endswith_append. apply endswith_refl.
Qed.

(** X18. The file name of a knowledge entry: the only file
    [knowledge_inject_node] opens is knowledge_<stamp>_<topic>.md, and the
    topic it derives from the message is at most 40 characters long and
    contains neither a space nor a slash, whatever the message.  If the
    machine refuses the name the node raises and leaves the world as it
    was. *)
Theorem X18_topic_is_safe :
  let topic := knowledge_topic (content m) in
  let name := "knowledge_" +:+ now_compact env +:+ "_" +:+ topic +:+ ".md" in
  let after := knowledge_inject_node env state w in
  match open_for_writing name w with
  | Returned _ =>
      data_dir (snd after)
      = Some (put_file name (knowledge_text env (content m)) files)
  | Raised e => after = (Raised e, w)
  end
  /\ (Py.len topic <= 40)%nat
  /\ Py.contains " " topic = false
  /\ Py.contains "/" topic = false.
Proof.
  intros topic name after. split.
  - subst after. rewrite inject_node_on.
    change (knowledge_file env (content m)) with name.
    destruct (open_for_writing name w); [|reflexivity].
    cbv zeta. destruct (start reindex_target _); reflexivity.
  - subst topic. unfold knowledge_topic.
    set (clean := Py.upto 40 (Orchestrator.strip_phrases (content m))).
    change (Py.replace (Py.replace clean " " "_") "/" "-")
      with (Py.replace_from "/" "-" 0 (Py.replace_from " " "_" 0 clean)).
    split; [|split].
    + rewrite !replace_char_len by reflexivity. apply upto_len.
    + apply replace_char_clears; [discriminate|right].
      apply replace_char_clears; [discriminate|now left].
    + apply replace_char_clears; [discriminate|now left].
Qed.

End Directory.

(** ** Runs of the supervisor *)

Section PacingFacts.
Import Watchdog Pacing.

Ltac open_turn :=
  unfold turn, port_down, port_up, start_server, emit, set_fail_count, set_server_proc;
  unfold bind, ret, modify, get, call, raise, try_except.

Ltac close_turn := cbn -[Nat.leb backoff_of pretty].

(** Every way a turn can go, by what it observes. *)
Ltac turn_cases p s :=
  open_turn;
  destruct (port_alive p); close_turn;
  [ destruct (_server_proc s) as [pid0|]; close_turn;
    [destruct (child_exited p); close_turn; [destruct (popen p); close_turn|]|]
  | destruct (3 <=? _fail_count s)%nat eqn:Ecount; close_turn;
    destruct (popen p); close_turn ].

Lemma turn_returns (p : Poll) (s : Sup) : fst (turn p s) = Returned tt.
Proof. turn_cases p s; reflexivity. Qed.


Lemma turns_cons (p : Poll) (ps : list Poll) (s : Sup) :
  turns (p :: ps) s = turns ps (snd (turn p s)).
Proof.
  cbn [turns]. unfold bind. pose proof (turn_returns p s) as H.
  destruct (turn p s) as [[[]|e] s1]; [reflexivity|discriminate H].
Qed.

Lemma turns_return (ps : list Poll) (s : Sup) : fst (turns ps s) = Returned tt.
Proof.
  revert s. induction ps as [|p ps IH]; intros s; [reflexivity|].
  rewrite turns_cons. apply IH.
Qed.


End PacingFacts.

(** The same loop over a log file that may refuse the line. *)
Section JournalFacts.
Import Watchdog Pacing.
Context `{J : Journal}.

Ltac open_turn :=
  unfold turn, port_down, port_up, start_server, log, emit, set_fail_count, set_server_proc;
  unfold bind, ret, modify, get, call, raise, try_except, ask.

Ltac close_turn := cbn -[Nat.leb backoff_of pretty write_line].

(** Every line the turn may write, in order, until one is refused. *)
Ltac lines :=
  repeat match goal with
         | |- context [match write_line ?evs ?msg with _ => _ end] =>
             let E := fresh "Eline" in
             destruct (write_line evs msg) as [[]|?] eqn:E; close_turn
         end.

Ltac turn_cases p s :=
  open_turn;
  destruct (port_alive p); close_turn;
  [ destruct (_server_proc s) as [pid0|]; close_turn;
    [destruct (child_exited p); close_turn; lines; [destruct (popen p); close_turn; lines..|]|]
  | destruct (3 <=? _fail_count s)%nat eqn:Ecount; close_turn; lines;
    destruct (popen p); close_turn; lines ].

Lemma turn_keeps_bound (p : Poll) (s : Sup) :
  (_fail_count s <= 3)%nat -> (_fail_count (snd (turn p s)) <= 3)%nat.
Proof.
  intros H. turn_cases p s; try lia; apply Nat.leb_gt in Ecount; lia.
Qed.

Lemma turn_raises (p : Poll) (s : Sup) (e : string) :
  fst (turn p s) = Raised e -> exists evs msg, write_line evs msg = Raised e.
Proof.
  turn_cases p s; try discriminate; intros [= <-]; eauto.
Qed.

Lemma turns_step (p : Poll) (ps : list Poll) (s : Sup) :
  turns (p :: ps) s
  = match fst (turn p s) with
    | Returned _ => turns ps (snd (turn p s))
    | Raised e => (Raised e, snd (turn p s))
    end.
Proof. cbn [turns]. unfold bind. destruct (turn p s) as [[[]|e] s1]; reflexivity. Qed.

Lemma turns_keep_bound (ps : list Poll) (s : Sup) :
  (_fail_count s <= 3)%nat -> (_fail_count (snd (turns ps s)) <= 3)%nat.
Proof.
  revert s. induction ps as [|p ps IH]; intros s Hs; [exact Hs|].
  rewrite turns_step. pose proof (turn_keeps_bound p s Hs) as Hb.
  destruct (fst (turn p s)); [now apply IH|exact Hb].
Qed.

Lemma turns_raise (ps : list Poll) (s : Sup) (e : string) :
  fst (turns ps s) = Raised e -> exists evs msg, write_line evs msg = Raised e.
Proof.
  revert s. induction ps as [|p ps IH]; intros s; [discriminate|].
  rewrite turns_step. destruct (fst (turn p s)) as [[]|e0] eqn:Et.
  - apply IH.
  - intros [= <-]. exact (turn_raises p s e0 Et).
Qed.

(** X19. The failure count never leaves 0..3: in every state the supervisor
    reaches from its start, whatever it observes at each poll (port up or
    down, launches succeeding or raising, the child exited or not) and
    whether or not the log file takes its lines, the count is at most 3.
    The loop ends only by an exception that writing a line to the log file
    raised; where every line is written it has not raised. *)
Theorem X19_fail_count_bounded (ps : list Poll) :
  (_fail_count (reach ps boot) <= 3)%nat
  /\ (forall e, fst (turns ps boot) = Raised e ->
        exists evs msg, write_line evs msg = Raised e)
  /\ (always_written -> fst (turns ps boot) = Returned tt).
Proof.
  split; [|split].
  - unfold reach. apply turns_keep_bound. simpl. lia.
  - intros e. apply turns_raise.
  - intros Hw. destruct (fst (turns ps boot)) as [[]|e] eqn:Et; [reflexivity|].
    destruct (turns_raise ps boot e Et) as (evs & msg & H).
    rewrite Hw in H. discriminate H.
Qed.

End JournalFacts.

Section FailedLaunches.
Import Watchdog Pacing.

Ltac open_turn :=
  unfold turn, port_down, port_up, start_server, emit, set_fail_count, set_server_proc;
  unfold bind, ret, modify, get, call, raise, try_except.

Ltac close_turn := cbn -[Nat.leb backoff_of pretty].



End FailedLaunches.

Section OutageFacts.
Import Watchdog Pacing.

Ltac open_turn :=
  unfold turn, port_down, port_up, start_server, emit, set_fail_count, set_server_proc;
  unfold bind, ret, modify, get, call, raise, try_except.

Ltac close_turn := cbn -[Nat.leb backoff_of pretty].




End OutageFacts.

(** ** The action engine behind the router *)

Section EngineFacts.
Import ActionEngine.

Lemma detected_is_triggered (text : string) (a : string) :
  detect_action text = Some a ->
  Py.any (fun t => Py.contains t (Py.strip (Py.lower text))) Router.action_triggers = true.
Proof.
  unfold detect_action. set (t := Py.strip (Py.lower text)).
  unfold Py.any, Router.action_triggers. cbn [existsb].
  destruct (Py.startswith t "play ") eqn:E1;
    [rewrite (startswith_contains _ _ E1); reflexivity|].
  destruct (Py.startswith t "open ") eqn:E2;
    [rewrite (startswith_contains _ _ E2), orb_true_r; reflexivity|].
  destruct (Py.contains "send whatsapp" t) eqn:E3; [now rewrite !orb_true_r|].
  destruct (Py.startswith t "audit ") eqn:E4;
    [rewrite (startswith_contains _ _ E4), !orb_true_r; reflexivity|].
  destruct (Py.contains "open youtube" t) eqn:E5; [now rewrite !orb_true_r|].
  discriminate.
Qed.

Variable state : GraphState.
Variable m : BaseMessage.
Hypothesis Hlast : last (messages state) = Some m.

(** X23. The router sends the engine everything the engine understands: a
    message in which [detect_action] finds an action, and which holds no
    inject or learn cue, is routed to "act". *)
Theorem X23_detected_actions_are_routed (a : string) :
  let msg := Py.strip (Py.lower (content m)) in
  detect_action (content m) = Some a ->
  Py.any (fun t => Py.startswith msg t) Router.inject_triggers = false ->
  Py.contains "remember" msg || Py.contains "save this" msg = false ->
  Router.router state = Returned "act".
Proof.
  intros msg Ha Hi Hl. subst msg. rewrite (router_reads_last state m Hlast).
  unfold Router.route. rewrite Hi, Hl, any_trigger_contains.
  now rewrite (detected_is_triggered (content m) a Ha).
Qed.

Variable env : Env.
Variable desk : Desk.
Variable w : World.
Hypothesis Hengine : action_engine env = Returned (parse_and_execute desk).

(** X24. The converse fails, and the user is told otherwise: when the engine
    finds no action in the message (as for a trigger in the middle of a
    sentence, which the router does send to "act"), [parse_and_execute]
    returns nothing without consulting the desktop, and [action_node] still
    answers "Command executed, Sir.". *)
Theorem X24_unrecognised_command_is_confirmed :
  detect_action (Py.strip (content m)) = None ->
  parse_and_execute desk (content m) = Returned None
  /\ Orchestrator.action_node env state w
     = (Returned (answered "Command executed, Sir."), w).
Proof.
  intros Hnone.
  assert (Hparse : parse_and_execute desk (content m) = Returned None)
    by (unfold parse_and_execute; now rewrite Hnone).
  split; [exact Hparse|].
  unfold Orchestrator.action_node, last_content. run.
  rewrite Hengine, Hlast. simpl. rewrite Hparse. reflexivity.
Qed.

Lemma prefix_append (a b : string) : String.prefix a (a +:+ b) = true.
Proof.
  induction a as [|c a IH]; [destruct b; reflexivity|].
  simpl. destruct (ascii_dec c c); [exact IH|congruence].
Qed.

Lemma sentinel_cut (filepath : string) :
  Py.cut ":" (AUDIT_REQUESTED +:+ filepath) = Some ("AUDIT_REQUESTED", filepath).
Proof.
  unfold AUDIT_REQUESTED. simpl. destruct filepath; reflexivity.
Qed.

Lemma sentinel_recognised (filepath : string) :
  negb (String.eqb (AUDIT_REQUESTED +:+ filepath) "")
  && Py.startswith (AUDIT_REQUESTED +:+ filepath) Orchestrator.AUDIT_SENTINEL = true
  /\ PyText.split_once_1 (AUDIT_REQUESTED +:+ filepath) ":" = Returned filepath.
Proof.
  split; [|unfold PyText.split_once_1; now rewrite sentinel_cut].
  unfold Py.startswith. change Orchestrator.AUDIT_SENTINEL with AUDIT_REQUESTED.
  rewrite prefix_append. reflexivity.
Qed.

(** X25. The audit sentinel round trip: when the engine recognises an audit
    command for a file that exists and opens, [audit_file] returns
    "AUDIT_REQUESTED:" followed by the path, and [action_node] recovers
    exactly that path from it, colons in the path included (as Python's
    [split(":", 1)[1]] does), and answers with what the vision module says
    about that path; without a vision module the answer names the path. *)
Theorem X25_audit_round_trip :
  let filepath := Py.strip (Py.from 6 (Py.strip (content m))) in
  detect_action (Py.strip (content m)) = Some "audit" ->
  path_exists desk filepath = true ->
  startfile desk filepath = Returned tt ->
  parse_and_execute desk (content m) = Returned (Some (AUDIT_REQUESTED +:+ filepath))
  /\ PyText.split_once_1 (AUDIT_REQUESTED +:+ filepath) ":" = Returned filepath
  /\ fst (Orchestrator.action_node env state w)
     = Returned (answered
         match vision_module env with
         | Some analyze_image =>
             match analyze_image filepath with
             | Returned a => if String.eqb a "" then "Command executed, Sir." else a
             | Raised e => "Action engine error: " +:+ e
             end
         | None => "Audit opened, but vision module unavailable. File: " +:+ filepath
         end).
Proof.
  intros filepath Hd He Hs.
  assert (Hparse : parse_and_execute desk (content m)
                   = Returned (Some (AUDIT_REQUESTED +:+ filepath))).
  { unfold parse_and_execute. rewrite Hd. cbn [String.eqb Ascii.eqb Bool.eqb].
    fold filepath. unfold audit_file. now rewrite He, Hs. }
  split; [exact Hparse|]. split.
  - unfold PyText.split_once_1. now rewrite sentinel_cut.
  - destruct (sentinel_recognised filepath) as [Hrec Hfrom].
    unfold Orchestrator.action_node. light. rewrite Hengine. light.
    rewrite Hlast. light. rewrite Hparse. light. rewrite Hrec, Hfrom. light.
    destruct (vision_module env) as [analyze|]; [|reflexivity].
    light. destruct (analyze filepath); reflexivity.
Qed.

(** X26. A WhatsApp command that lacks "send whatsapp to" is answered with
    the format reminder and nothing is sent, whatever the desktop would do;
    with "send whatsapp to <name>" and no colon the contact is the
    title-cased name and the message sent is "Hello". *)
Theorem X26_whatsapp_parsing :
  let tl := Py.lower (Py.strip (content m)) in
  detect_action (Py.strip (content m)) = Some "whatsapp" ->
  (Py.cut "send whatsapp to" tl = None ->
     parse_and_execute desk (content m) = Returned (Some WHATSAPP_FORMAT))
  /\ (forall before after,
        Py.cut "send whatsapp to" tl = Some (before, after) ->
        Py.contains ":" (PyText.split_0 after "send whatsapp to") = false ->
        parse_and_execute desk (content m)
        = match send_whatsapp desk
                  (Py.title (Py.strip (PyText.split_0 after "send whatsapp to")))
                  "Hello" with
          | Returned r => Returned (Some r)
          | Raised _ => Returned (Some WHATSAPP_FORMAT)
          end).
Proof.
  intros tl Hd. split.
  - intros Hcut. unfold parse_and_execute. rewrite Hd.
    cbn [String.eqb Ascii.eqb Bool.eqb]. fold tl.
    unfold whatsapp_branch, PyText.split_1. now rewrite Hcut.
  - intros before after Hcut Hcolon. unfold parse_and_execute. rewrite Hd.
    cbn [String.eqb Ascii.eqb Bool.eqb]. fold tl.
    unfold whatsapp_branch, PyText.split_1. rewrite Hcut, Hcolon.
    assert (H0 : PyText.split_0 (PyText.split_0 after "send whatsapp to") ":"
                 = PyText.split_0 after "send whatsapp to").
    { unfold PyText.split_0 at 1.
      destruct (Py.cut ":" _) as [[b a]|] eqn:E; [|reflexivity].
      exfalso. revert E Hcolon. generalize (PyText.split_0 after "send whatsapp to").
      intros s. revert b a. induction s as [|c s IH]; intros b a; [discriminate|].
      cbn [Py.cut]. rewrite contains_char, prefix_char.
      destruct (Ascii.eqb ":" c); [discriminate|].
      destruct (Py.cut ":" s) as [[b' a']|] eqn:E'; [|discriminate].
      intros _ H. apply (IH b' a' eq_refl). exact H. }
    rewrite H0. destruct (send_whatsapp desk _ _); reflexivity.
Qed.

End EngineFacts.

(** ** Start-up *)

Section StartupFacts.
Import Startup.

Variable host : Host.

Let start : Boot := mkBoot 0 [].
Let run_it := _ensure_ollama_running host start.

Ltac boot_cases :=
  unfold run_it, start, _ensure_ollama_running, attempts, probe, emit;
  unfold bind, ret, modify, raise; cbn;
  destruct (responsive host 0) eqn:R0; cbn;
  [|destruct (spawn host) eqn:Sp; cbn;
    [destruct (responsive host 1) eqn:R1; cbn;
     [|destruct (responsive host 2) eqn:R2; cbn;
       [|destruct (responsive host 3) eqn:R3; cbn]]
    | | ]].

(** X27. [_ensure_ollama_running] tries to launch Ollama at most once, sends
    at most four GETs and sleeps at most 15 seconds in all.  If the first GET
    is answered it does nothing else; if the binary is missing it gives up at
    once without sleeping; and it raises exactly when the first GET fails and
    the launch raises something other than [FileNotFoundError]. *)
Theorem X27_ollama_start_is_bounded :
  (launches (events (snd run_it)) <= 1)%nat
  /\ (length (probes (events (snd run_it))) <= 4)%nat
  /\ (slept (events (snd run_it)) <= 15)%nat
  /\ (responsive host 0 = true ->
      run_it = (Returned tt,
                mkBoot 1 [Get true; Print "[Ollama]: Responsive — all systems go, Sir."]))
  /\ (responsive host 0 = false -> spawn host = BinaryNotFound ->
      fst run_it = Returned tt /\ slept (events (snd run_it)) = 0%nat
      /\ probes (events (snd run_it)) = [false])
  /\ (forall e, fst run_it = Raised e
                <-> responsive host 0 = false /\ spawn host = SpawnFailed e).
Proof.
  split; [|split; [|split; [|split; [|split]]]].
  - boot_cases; lia.
  - boot_cases; lia.
  - boot_cases; lia.
  - intros H. boot_cases; try discriminate H. reflexivity.
  - intros H1 H2. boot_cases; try discriminate H1; try discriminate H2.
    repeat split.
  - intros e. split.
    + boot_cases; intros H; try discriminate H.
      injection H as ->. split; reflexivity.
    + intros [H1 H2]. boot_cases; try discriminate H1; try discriminate H2.
      injection H2 as ->. reflexivity.
Qed.

End StartupFacts.

(** ** The other endpoints *)

Section EndpointFacts.
Import Telemetry Orchestrator Endpoints.

Lemma contains_append_r (t a s : string) :
  Py.contains t s = true -> Py.contains t (a +:+ s) = true.
Proof.
  intros H. induction a as [|c a IH]; [exact H|].
  change (Py.contains t (String c (a +:+ s)) = true).
  cbn [Py.contains]. rewrite IH. apply orb_true_r.
Qed.

Lemma prefix_of_append (a b : string) : String.prefix a (a +:+ b) = true.
Proof.
  induction a as [|c a IH]; [destruct b; reflexivity|].
  simpl. destruct (ascii_dec c c); [exact IH|congruence].
Qed.

Section Teach.
Context `{OS : Machine}.
Variable env : Env.
Variable w : World.

(** X28. [teach] stores the knowledge as it was sent.  On any machine: with
    no data directory it raises and changes nothing, and so it does when the
    machine refuses the file; otherwise it writes injected_<stamp>.md, whose
    text contains the payload unchanged (no lowercasing, no stripping), and,
    the re-index thread starting, returns its status line; a later rebuild
    at or below the memory threshold loads a document with that text as the
    text-mode loader reads it back, which is the text itself when it holds
    no carriage return. *)
Theorem X28_teach_is_verbatim (env2 : Env) (knowledge : string) :
  let name := taught_file env in
  let text := taught_text env knowledge in
  let after := teach env knowledge w in
  match data_dir w with
  | None => after = (Raised "FileNotFoundError", w)
  | Some files =>
      match open_for_writing name w with
      | Raised e => after = (Raised e, w)
      | Returned _ =>
          data_dir (snd after) = Some (put_file name text files)
          /\ (threads_start ->
              after = (Returned TEACH_STATUS,
                       set_threads (threads w ++ [reindex_target])
                         (set_data_dir (Some (put_file name text files)) w)))
          /\ Py.contains knowledge text = true
          /\ ((virtual_memory_percent env2 <= 40)%Q ->
              mkDocument (Py.universal_newlines text)
                         (Index.path_join Index.DATA_DIR name)
              ∈ self_documents (snd (Index._build_index env2 (snd after))))
          /\ (Py.contains CR text = false -> Py.universal_newlines text = text)
      end
  end.
Proof.
  intros name text after. subst after. unfold teach, start_thread.
  destruct (data_dir w) as [files|] eqn:Hdir.
  - cbv beta delta [bind]. rewrite (write_runs _ _ w files Hdir). fold name. fold text.
    destruct (open_for_writing name w); [|reflexivity].
    unfold ask, modify, ret.
    assert (Hname : Py.endswith name ".md" = true).
    { subst name. unfold taught_file. repeat apply endswith_append. apply endswith_refl. }
    assert (Hheld : Py.contains knowledge text = true).
    { subst text. unfold taught_text. do 4 apply contains_append_r.
      apply startswith_contains. apply prefix_of_append. }
    destruct (start reindex_target _) eqn:Est; cbn [fst snd];
      (split; [reflexivity|]);
      (split; [intros Hth; rewrite Hth in Est; first [reflexivity|discriminate Est]|]);
      (split; [exact Hheld|]); (split; [|apply universal_newlines_plain]);
      intros Hg; rewrite (open_rebuild_documents env2 _ Hg);
      unfold Index.load_documents; cbn [data_dir set_threads set_data_dir];
      (apply loaded_if_held; [exact Hname|apply put_file_holds]).
  - cbv beta delta [bind]. unfold write. now rewrite Hdir.
Qed.

End Teach.

Variable env : Env.
Variable w : World.
Variable prior : GraphState.


End EndpointFacts.

(** ** The supervisor's view of the port *)

Section PortFacts.
Import Ports.

Lemma zombie_spec (port local : N) (conn : Conn) (p : nat) :
  zombie port local conn = Some p <-> local = port /\ pid conn = Some p /\ p <> 0%nat.
Proof.
  unfold zombie. destruct (N.eqb_spec local port) as [->|Hne].
  - destruct (pid conn) as [q|]; [|split; [discriminate|intros (_ & H & _); discriminate H]].
    destruct (Nat.eqb_spec q 0) as [->|Hq].
    + split; [discriminate|]. intros (_ & [= ->] & H). congruence.
    + split; [intros [= ->]; auto|]. intros (_ & [= ->] & _). reflexivity.
  - split; [discriminate|]. intros (H & _). congruence.
Qed.

(** What one entry adds to the signals. *)
Lemma killed_one (kill : nat -> outcome unit) (port local : N) (conn : Conn) (p : nat) :
  p ∈ killed (match zombie port local conn with
              | Some q =>
                  match kill q with
                  | Returned _ =>
                      [Kill q true;
                       Logged ("Cleared zombie PID " +:+ pretty q +:+ " on port "
                               +:+ pretty port +:+ ".")]
                  | Raised _ => [Kill q false]
                  end
              | None => []
              end)
  <-> zombie port local conn = Some p.
Proof.
  destruct (zombie port local conn) as [q|]; [|split; [intros H; inversion H|discriminate]].
  destruct (kill q); simpl; rewrite list_elem_of_singleton;
    split; intros H; congruence.
Qed.

Lemma sweep_killed (conns : list Conn) (kill : nat -> outcome unit) (port : N) (p : nat) :
  p ∈ killed (sweep conns kill port)
  <-> exists conn, conn ∈ reached conns
                   /\ laddr conn = Some port /\ pid conn = Some p /\ p <> 0%nat.
Proof.
  induction conns as [|c conns IH]; simpl.
  - split; [intros H; inversion H|intros (conn & H & _); inversion H].
  - destruct (laddr c) as [local|] eqn:El.
    + unfold killed in *. rewrite flat_map_app, elem_of_app.
      fold (killed (sweep conns kill port)). rewrite IH.
      change (flat_map _ ?l) with (killed l). rewrite killed_one, zombie_spec.
      split.
      * intros [(-> & Hp & H0)|(conn & Hin & H)].
        -- exists c. split; [left|auto].
        -- exists conn. split; [now right|exact H].
      * intros (conn & Hin & Hl & Hp & H0).
        apply elem_of_cons in Hin as [->|Hin].
        -- left. rewrite El in Hl. injection Hl as ->. auto.
        -- right. exists conn. auto.
    + split; [intros H; inversion H|intros (conn & H & _); inversion H].
Qed.

Lemma listening_spec (conns : list Conn) (port : N) :
  listening conns port = true
  <-> exists conn, conn ∈ reached conns /\ laddr conn = Some port /\ status conn = "LISTEN".
Proof.
  induction conns as [|c conns IH]; simpl.
  - split; [discriminate|intros (conn & H & _); inversion H].
  - destruct (laddr c) as [local|] eqn:El.
    + destruct (N.eqb local port && String.eqb (status c) "LISTEN") eqn:E.
      * split; [intros _|reflexivity].
        apply andb_true_iff in E as [E1 E2].
        apply N.eqb_eq in E1. apply String.eqb_eq in E2. subst local.
        exists c. split; [left|auto].
      * rewrite IH. split.
        -- intros (conn & Hin & H). exists conn. split; [now right|exact H].
        -- intros (conn & Hin & Hl & Hs).
           apply elem_of_cons in Hin as [->|Hin]; [|eauto].
           rewrite El in Hl. injection Hl as ->.
           rewrite N.eqb_refl, Hs in E. discriminate E.
    + split; [discriminate|intros (conn & H & _); inversion H].
Qed.

Lemma reached_all (conns : list Conn) :
  Forall (fun conn => is_Some (laddr conn)) conns -> reached conns = conns.
Proof.
  induction 1 as [|c conns [local Hc] _ IH]; [reflexivity|].
  simpl. now rewrite Hc, IH.
Qed.

(** X30. Both loops over the connection table stop, in their handler, at the
    first entry without a local address; of the entries before it,
    [kill_zombies] signals exactly the processes that hold a socket on the
    port, listening or not, and whose pid is known and not 0, whether or not
    each kill succeeds; so whenever [is_port_alive] is true, the listener it
    found is among them if its pid is known.  When every entry has a local
    address the loops reach them all.  When the connection table cannot be
    read, the port counts as dead and nothing is signalled. *)
Theorem X30_kill_zombies_targets (table : outcome (list Conn)) (kill : nat -> outcome unit)
    (port : N) :
  (forall p,
     p ∈ killed (kill_zombies table kill port)
     <-> exists conns conn, table = Returned conns /\ conn ∈ reached conns
                            /\ laddr conn = Some port /\ pid conn = Some p /\ p <> 0%nat)
  /\ (is_port_alive table port = true
      <-> exists conns conn, table = Returned conns /\ conn ∈ reached conns
                             /\ laddr conn = Some port /\ status conn = "LISTEN")
  /\ (forall conns conn q,
        table = Returned conns -> conn ∈ reached conns ->
        laddr conn = Some port -> status conn = "LISTEN" ->
        pid conn = Some q -> q <> 0%nat ->
        q ∈ killed (kill_zombies table kill port))
  /\ (forall conns,
        Forall (fun conn => is_Some (laddr conn)) conns -> reached conns = conns)
  /\ (forall conn rest,
        table = Returned (conn :: rest) -> laddr conn = None ->
        is_port_alive table port = false /\ kill_zombies table kill port = [])
  /\ (forall e, table = Raised e ->
        is_port_alive table port = false /\ kill_zombies table kill port = []).
Proof.
  assert (Hkilled : forall p,
     p ∈ killed (kill_zombies table kill port)
     <-> exists conns conn, table = Returned conns /\ conn ∈ reached conns
                            /\ laddr conn = Some port /\ pid conn = Some p /\ p <> 0%nat).
  { intros p. destruct table as [conns|e]; simpl.
    - rewrite sweep_killed. split.
      + intros (conn & H). exists conns, conn. auto.
      + intros (conns' & conn & [= <-] & H). exists conn. exact H.
    - split; [intros H; inversion H|]. intros (conns & conn & H & _). discriminate H. }
  split; [exact Hkilled|]. split; [|split; [|split; [|split]]].
  - destruct table as [conns|e]; simpl.
    + rewrite listening_spec. split.
      * intros (conn & H). exists conns, conn. auto.
      * intros (conns' & conn & [= <-] & H). exists conn. exact H.
    + split; [discriminate|]. intros (conns & conn & H & _). discriminate H.
  - intros conns conn q Ht Hin Hl Hs Hq Hq0. apply Hkilled.
    exists conns, conn. auto.
  - apply reached_all.
  - intros conn rest -> Hl. simpl. now rewrite Hl.
  - intros e ->. split; reflexivity.
Qed.

End PortFacts.

End Further.


(** ** The further properties at sample inputs *)

Lemma X1_learn_precedence_witness :
  Router.router (Cases.say "Please remember to open figma" (Some [])) = Returned "learn".
Proof.
  apply (X1_learn_precedence (Cases.say "Please remember to open figma" (Some []))
           (HumanMessage "Please remember to open figma") eq_refl eq_refl eq_refl).
Defined.

Lemma X2_act_anywhere_witness :
  Router.router (Cases.say "could you please open figma" (Some [])) = Returned "act".
Proof.
  apply (X2_act_anywhere (Cases.say "could you please open figma" (Some []))
           (HumanMessage "could you please open figma") eq_refl eq_refl eq_refl).
  reflexivity.
Defined.

Lemma X3_bad_line_silences_hint_witness :
  Telemetry._check_shortcut "status report" Cases.torn_log = "".
Proof.
  apply (X3_bad_line_silences_hint Cases.torn_log
           [Cases.entry "status report"; Cases.entry "status report"; Unreadable;
            Cases.entry "status report"] "status report" eq_refl).
  left. set_solver.
Defined.

Lemma X4_every_use_counts_witness :
  Telemetry._check_shortcut "status report"
    (snd (Telemetry._log_usage Samples.calm "Pepper" "STATUS REPORT" "error: timeout"
            Cases.twice_asked))
  = Telemetry.SHORTCUT_HINT.
Proof.
  apply (X4_every_use_counts Samples.calm "Pepper" "STATUS REPORT" "error: timeout"
           "status report" Cases.twice_asked 2 eq_refl eq_refl).
Defined.

Lemma X5_failed_reindex_is_logged_witness :
  fst (Index.reindex Cases.mute_env Samples.stocked) = Returned tt
  /\ health_log (snd (Index.reindex Cases.mute_env Samples.stocked))
     = [("2024-01-05 09:30:00", ReindexFailed "EmbeddingError")]
  /\ Status.chunks (Status.status (snd (Index.reindex Cases.mute_env Samples.stocked))) = 2%nat
  /\ Status.vectors (Status.status (snd (Index.reindex Cases.mute_env Samples.stocked))) = 0%nat.
Proof.
  destruct (X5_failed_reindex_is_logged Cases.mute_env Samples.stocked "EmbeddingError")
    as [_ H].
  destruct (H sound_logs_writable) as [Hret Hfail].
  destruct Hfail as (Hlog & _ & _ & _ & Hc & Hv).
  - exact Q_25_le_40.
  - discriminate.
  - vm_compute. lia.
  - reflexivity.
  - split; [exact Hret|]. split; [exact Hlog|]. split; [exact Hc|exact Hv].
Defined.

(** On a machine whose log files cannot be appended to, the failure of the
    embedder is not logged: the handler's own exception leaves [reindex]. *)
Example reindex_on_read_only_disk :
  fst (Index.reindex (OS := Cases.read_only) Cases.mute_env Samples.stocked)
  = Raised "PermissionError: [Errno 13] Permission denied".
Proof. reflexivity. Qed.

Lemma X6_empty_corpus_drops_store_witness :
  Status.vectors (Status.status (snd (Index._build_index Samples.calm Cases.no_corpus))) = 0%nat
  /\ length (chroma_db (snd (Index._build_index Samples.calm Cases.no_corpus))) = 3%nat.
Proof.
  destruct (X6_empty_corpus_drops_store Samples.calm Cases.mute_env
              (Cases.say "tell me about permits" None) (HumanMessage "tell me about permits")
              Cases.no_corpus Q_25_le_40 eq_refl eq_refl) as (_ & _ & Hdb & Hv & _).
  split; [exact Hv|]. rewrite Hdb. reflexivity.
Defined.




Lemma X14_action_node_always_answers_witness :
  fst (Orchestrator.action_node Cases.mute_env (Cases.say "open figma" None) Samples.bare)
  = Returned (answered "Command executed, Sir.").
Proof.
  destruct (X14_action_node_always_answers Cases.mute_env (Cases.say "open figma" None)
              Samples.bare) as [_ H].
  apply (H (fun _ => Returned None) (HumanMessage "open figma") None eq_refl eq_refl eq_refl).
  left. reflexivity.
Defined.

Lemma X11_ask_never_raises_witness :
  exists reply,
    fst (Orchestrator.ask_jarvis Cases.mute_env Orchestrator.fresh_thread "Dwijas"
           Orchestrator.NOTE Cases.indexed)
    = Returned reply.
Proof.
  destruct (X11_ask_never_raises Cases.mute_env Orchestrator.fresh_thread "Dwijas"
              Orchestrator.NOTE Cases.indexed) as [_ H].
  destruct (H sound_logs_writable) as (reply & tag & Hr & _).
  exists reply. exact Hr.
Defined.

(** With log files that cannot be appended to, the request that fails in
    the graph raises out of [ask_jarvis]. *)
Example ask_on_read_only_disk :
  fst (Orchestrator.ask_jarvis (OS := Cases.read_only) Cases.mute_env
         Orchestrator.fresh_thread "Dwijas" Orchestrator.NOTE Cases.indexed)
  = Raised "PermissionError: [Errno 13] Permission denied".
Proof. reflexivity. Qed.

(** And so does the web search whose search fails. *)
Example web_search_on_read_only_disk :
  fst (Orchestrator.web_search_node (OS := Cases.read_only) Cases.mute_env
         (Cases.say "latest permit rules" None) Samples.bare)
  = Raised "PermissionError: [Errno 13] Permission denied".
Proof. reflexivity. Qed.

Lemma X16_learn_appends_witness :
  exists files',
    data_dir (snd (Orchestrator.self_learn_node Samples.calm
                     (Cases.say "Remember the gate code is 4417" None) Samples.stocked))
    = Some files'
    /\ Histories.file_text "learned_memory.md" files'
       = Some (Returned (nl +:+ "- [2024-01-05 09:30:00] the gate code is 4417"))
    /\ Histories.file_text "permits.md" files' = Some (Returned "permits are filed on Mondays")
    /\ fst (Orchestrator.self_learn_node Samples.calm
              (Cases.say "Remember the gate code is 4417" None) Samples.stocked)
       = Returned (answered Orchestrator.LEARN_ACK).
Proof.
  pose proof (X16_learn_appends Samples.calm (Cases.say "Remember the gate code is 4417" None)
                (HumanMessage "Remember the gate code is 4417") Samples.stocked
                [("permits.md", Returned "permits are filed on Mondays");
                 ("logo.png", Returned "");
                 ("clients.txt", Returned "the client meets Fridays")] eq_refl eq_refl) as H.
  cbv beta iota zeta delta [open_for_writing sound] in H.
  destruct H as (files' & Hrun & Hfile & Hother & Hstart).
  exists files'. split; [exact Hrun|]. split; [|split].
  - rewrite Hfile. reflexivity.
  - rewrite Hother by discriminate. reflexivity.
  - exact (proj1 (Hstart sound_threads_start)).
Defined.

Lemma X17_note_is_loaded_witness :
  mkDocument ("# Knowledge Entry — 2024-01-05 09:30:00" +:+ nl +:+ nl
              +:+ "the client meets fridays" +:+ nl)
             "data/knowledge_20240105_093000_the_client_meets_fridays.md"
  ∈ self_documents
      (snd (Index._build_index Cases.mute_env
              (snd (Orchestrator.knowledge_inject_node Samples.calm
                      (Cases.say Orchestrator.NOTE None) Samples.bare)))).
Proof.
  destruct (X17_note_is_loaded (OS := sound) Samples.calm (Cases.say Orchestrator.NOTE None)
              (HumanMessage Orchestrator.NOTE) Samples.bare [] eq_refl eq_refl
              Cases.mute_env eq_refl Q_25_le_40) as (_ & H & _).
  exact H.
Defined.

Lemma X18_topic_is_safe_witness :
  knowledge_topic "Jarvis, note that rent/lease renewals for every client are reviewed in May"
  = "rent-lease_renewals_for_every_client_are"
  /\ Py.contains "/" (knowledge_topic
       "Jarvis, note that rent/lease renewals for every client are reviewed in May") = false.
Proof.
  destruct (X18_topic_is_safe Samples.calm
              (Cases.say "Jarvis, note that rent/lease renewals for every client are reviewed in May"
                         None)
              (HumanMessage
                 "Jarvis, note that rent/lease renewals for every client are reviewed in May")
              Samples.bare [] eq_refl eq_refl) as (_ & _ & _ & Hslash).
  split; [reflexivity|exact Hslash].
Defined.

Lemma X19_fail_count_bounded_witness :
  (Watchdog._fail_count
     (Pacing.reach [Cases.launch_fails; Cases.down_with 71; Cases.down_with 72;
                    Cases.down_with 73; Cases.down_with 74] Watchdog.boot) <= 3)%nat
  /\ fst (Watchdog.turns [Cases.launch_fails; Cases.down_with 71; Cases.down_with 72;
                          Cases.down_with 73; Cases.down_with 74] Watchdog.boot)
     = Returned tt.
Proof.
  destruct (X19_fail_count_bounded
              [Cases.launch_fails; Cases.down_with 71; Cases.down_with 72;
               Cases.down_with 73; Cases.down_with 74]) as (Hc & _ & Hr).
  split; [exact Hc|]. apply Hr. intros evs msg. reflexivity.
Defined.



Lemma X23_detected_actions_are_routed_witness :
  Router.router (Cases.say "  Audit C:\docs\lease.png" None) = Returned "act".
Proof.
  apply (X23_detected_actions_are_routed (Cases.say "  Audit C:\docs\lease.png" None)
           (HumanMessage "  Audit C:\docs\lease.png") eq_refl "audit"
           eq_refl eq_refl eq_refl).
Defined.

Lemma X24_unrecognised_command_is_confirmed_witness :
  Router.router (Cases.say "could you please open figma" None) = Returned "act"
  /\ Orchestrator.action_node Cases.engine_env (Cases.say "could you please open figma" None)
                              Samples.bare
     = (Returned (answered "Command executed, Sir."), Samples.bare).
Proof.
  split; [reflexivity|].
  apply (X24_unrecognised_command_is_confirmed
           (Cases.say "could you please open figma" None)
           (HumanMessage "could you please open figma") eq_refl
           Cases.engine_env Cases.desk Samples.bare eq_refl eq_refl).
Defined.

Lemma X25_audit_round_trip_witness :
  fst (Orchestrator.action_node Cases.engine_env (Cases.say "audit C:\docs\lease.png" None)
                                Samples.bare)
  = Returned (answered "Reviewed C:\docs\lease.png, Sir.").
Proof.
  destruct (X25_audit_round_trip (Cases.say "audit C:\docs\lease.png" None)
              (HumanMessage "audit C:\docs\lease.png") eq_refl
              Cases.engine_env Cases.desk Samples.bare eq_refl eq_refl eq_refl eq_refl)
    as (_ & _ & H).
  exact H.
Defined.

Lemma X26_whatsapp_parsing_witness :
  ActionEngine.parse_and_execute Cases.desk "send whatsapp hello"
  = Returned (Some ActionEngine.WHATSAPP_FORMAT)
  /\ ActionEngine.parse_and_execute Cases.desk "Send WhatsApp to pepper potts"
     = Returned (Some "Message sent to Pepper Potts on WhatsApp, Sir.").
Proof.
  split.
  - destruct (X26_whatsapp_parsing (HumanMessage "send whatsapp hello") Cases.desk eq_refl)
      as [H _].
    apply H. reflexivity.
  - destruct (X26_whatsapp_parsing (HumanMessage "Send WhatsApp to pepper potts") Cases.desk
                eq_refl) as [_ H].
    apply (H "" " pepper potts" eq_refl eq_refl).
Defined.

Lemma X27_ollama_start_is_bounded_witness :
  Startup._ensure_ollama_running Cases.up_host (Startup.mkBoot 0 [])
  = (Returned tt,
     Startup.mkBoot 1 [Startup.Get true;
                       Startup.Print "[Ollama]: Responsive — all systems go, Sir."])
  /\ Startup.slept (Startup.events
       (snd (Startup._ensure_ollama_running Cases.bare_host (Startup.mkBoot 0 [])))) = 0%nat
  /\ fst (Startup._ensure_ollama_running Cases.broken_host (Startup.mkBoot 0 []))
     = Raised "PermissionError".
Proof.
  split; [|split].
  - destruct (X27_ollama_start_is_bounded Cases.up_host) as (_ & _ & _ & H & _).
    exact (H eq_refl).
  - destruct (X27_ollama_start_is_bounded Cases.bare_host) as (_ & _ & _ & _ & H & _).
    exact (proj1 (proj2 (H eq_refl eq_refl))).
  - destruct (X27_ollama_start_is_bounded Cases.broken_host) as (_ & _ & _ & _ & _ & H).
    apply H. split; reflexivity.
Defined.

Lemma X28_teach_is_verbatim_witness :
  mkDocument ("# Injected Knowledge - 20240105_093000" +:+ nl +:+ nl
              +:+ "The Client meets FRIDAYS" +:+ nl)
             "data/injected_20240105_093000.md"
  ∈ self_documents
      (snd (Index._build_index Samples.calm
              (snd (Endpoints.teach Samples.calm "The Client meets FRIDAYS" Samples.bare)))).
Proof.
  pose proof (X28_teach_is_verbatim (OS := sound) Samples.calm Samples.bare Samples.calm
                "The Client meets FRIDAYS") as H.
  change (data_dir Samples.bare) with (Some (@nil (string * outcome string))) in H.
  cbv beta iota zeta delta [open_for_writing sound] in H.
  destruct H as (_ & _ & _ & H & _). exact (H Q_25_le_40).
Defined.

(** A payload with a carriage return is not read back as it was sent: the
    text-mode loader turns "\r\n" into "\n". *)
Example taught_carriage_return_is_lost :
  mkDocument ("# Injected Knowledge - 20240105_093000" +:+ nl +:+ nl
              +:+ "line one" +:+ nl +:+ "line two" +:+ nl)
             "data/injected_20240105_093000.md"
  ∈ self_documents
      (snd (Index._build_index Samples.calm
              (snd (Endpoints.teach Samples.calm ("line one" +:+ CR +:+ nl +:+ "line two")
                      Samples.bare)))).
Proof. vm_compute. set_solver. Qed.


Lemma X30_kill_zombies_targets_witness :
  41%nat ∈ Ports.killed (Ports.kill_zombies Cases.table (fun _ => Raised "AccessDenied") 8000)
  /\ 57%nat ∈ Ports.killed (Ports.kill_zombies Cases.table (fun _ => Raised "AccessDenied") 8000)
  /\ Ports.is_port_alive Cases.unbound_first 8000 = false
  /\ Ports.kill_zombies Cases.unbound_first (fun _ => Returned tt) 8000 = [].
Proof.
  split; [|split].
  - destruct (X30_kill_zombies_targets Cases.table (fun _ => Raised "AccessDenied") 8000%N)
      as (_ & _ & Hl & _).
    apply (Hl _ (Ports.mkConn (Some 8000%N) "LISTEN" (Some 41)) 41%nat eq_refl);
      [cbn; left|reflexivity|reflexivity|reflexivity|discriminate].
  - destruct (X30_kill_zombies_targets Cases.table (fun _ => Raised "AccessDenied") 8000%N)
      as (Hk & _).
    apply Hk. eexists _, (Ports.mkConn (Some 8000%N) "ESTABLISHED" (Some 57)).
    split; [reflexivity|]. split; [cbn; right; left|]. repeat split. discriminate.
  - destruct (X30_kill_zombies_targets Cases.unbound_first (fun _ => Returned tt) 8000%N)
      as (_ & _ & _ & _ & H & _).
    exact (H _ _ eq_refl eq_refl).
Defined.
